(** * Registration flow of the storefront mock-up (App.tsx)

    A shallow embedding of the React component [App] and of the two pure
    helpers [formatPhoneNumber] and [validateUAEPhone].  Two versions of the
    component are in the repository, the one with the Apple sign-in overlay
    and the one in [src/App.tsx]; what they share is embedded once, what they
    do differently lives in the modules [WithAppleScreen] and [AppTsx].

    A JavaScript string is a sequence of UTF-16 code units; it is embedded
    as a [list N], one number per code unit, so that [length] is the
    [.length] of the source and a regular expression class is a predicate on
    code units. *)

From Stdlib Require Import Ascii String.
From stdpp Require Import base numbers list.

Local Open Scope Z_scope.
Local Open Scope nat_scope.

(** ** JavaScript strings *)

Abbreviation jsstring := (list N).

(** An ASCII literal of the source, as code units. *)
Definition js (s : string) : jsstring :=
  N_of_ascii <$> list_ascii_of_string s.

(** The class [\d] (without the unicode flag): the ten ASCII digits. *)
Definition is_digit (c : N) : Prop := (48 <= c <= 57)%N.

Global Instance is_digit_dec c : Decision (is_digit c).
Proof. unfold is_digit. apply _. Defined.

(** [value.replace(/\D/g, '')] *)
Definition strip_non_digits (value : jsstring) : jsstring :=
  filter is_digit value.

(** [s.slice(a, b)] and [s.slice(a)] for the literal indices of the source,
    all of them non-negative with [a <= b]: the end index is clamped to the
    length of the string. *)
Definition slice (a b : nat) (s : jsstring) : jsstring := take (b - a) (drop a s).
Definition slice_from (a : nat) (s : jsstring) : jsstring := drop a s.

(** [s.startsWith(p)] *)
Definition startsWith (p s : jsstring) : bool := bool_decide (p `prefix_of` s).

(** A string is falsy exactly when it is empty. *)
Definition truthy (s : jsstring) : bool :=
  match s with [] => false | _ :: _ => true end.

Definition space : jsstring := [32%N].

(** ** Phone number formatting and validation *)

Definition formatPhoneNumber (value : jsstring) : jsstring :=
  let numbers := strip_non_digits value in
  if length numbers <=? 2 then numbers
  else if length numbers <=? 5 then
    slice 0 2 numbers ++ space ++ slice_from 2 numbers
  else if length numbers <=? 8 then
    slice 0 2 numbers ++ space ++ slice 2 5 numbers ++ space ++ slice_from 5 numbers
  else
    slice 0 2 numbers ++ space ++ slice 2 5 numbers ++ space ++ slice 5 9 numbers.

Definition validateUAEPhone (phone : jsstring) : bool :=
  let numbers := strip_non_digits phone in
  (length numbers =? 9) && startsWith (js "05") numbers.

(** [formatPhoneForDisplay] is declared inside the component but reads none
    of its state. *)
Definition formatPhoneForDisplay (phone : jsstring) : jsstring :=
  let numbers := strip_non_digits phone in
  js "+971 " ++ slice 0 2 numbers ++ space ++ slice 2 5 numbers
    ++ space ++ slice 5 9 numbers.

(** ** Strings and arrays of the brand picker *)

(** [String.prototype.trim] strips WhiteSpace and LineTerminator code units:
    TAB, LF, VT, FF, CR, SP, NBSP, U+1680, U+2000..U+200A, U+2028, U+2029,
    U+202F, U+205F, U+3000 and the byte order mark. *)
Definition is_space (c : N) : bool :=
  ((9 <=? c) && (c <=? 13) || (c =? 32) || (c =? 160) || (c =? 5760)
   || (8192 <=? c) && (c <=? 8202) || (c =? 8232) || (c =? 8233)
   || (c =? 8239) || (c =? 8287) || (c =? 12288) || (c =? 65279))%N.

Fixpoint trimStart (s : jsstring) : jsstring :=
  match s with
  | [] => []
  | c :: r => if is_space c then trimStart r else s
  end.

Fixpoint trimEnd (s : jsstring) : jsstring :=
  match s with
  | [] => []
  | c :: r =>
      match trimEnd r with
      | [] => if is_space c then [] else [c]
      | r' => c :: r'
      end
  end.

Definition trim (s : jsstring) : jsstring := trimEnd (trimStart s).

Definition comma : N := 44%N.

(** [s.split(sep)] for a separator of one code unit: the pieces between the
    separators, the empty ones too; the empty string splits into [['']]. *)
Fixpoint split (sep : N) (s : jsstring) : list jsstring :=
  match s with
  | [] => [[]]
  | c :: r =>
      if decide (c = sep) then [] :: split sep r
      else match split sep r with
           | h :: t => (c :: h) :: t
           | [] => [[c]]
           end
  end.

(** [xs.join(sep)] *)
Fixpoint join (sep : jsstring) (xs : list jsstring) : jsstring :=
  match xs with
  | [] => []
  | x :: rest =>
      match rest with
      | [] => x
      | _ :: _ => x ++ sep ++ join sep rest
      end
  end.

(** [xs.includes(x)] on an array of strings. *)
Definition includes (xs : list jsstring) (x : jsstring) : bool :=
  bool_decide (x ∈ xs).

(** [hay.includes(needle)] on strings: [needle] occurs somewhere in [hay]. *)
Fixpoint str_includes (hay needle : jsstring) : bool :=
  startsWith needle hay
  || match hay with
     | [] => false
     | _ :: r => str_includes r needle
     end.

(** [arr[index] = value] on a copy of the array.  The OTP inputs are rendered
    from the array itself, so [index] is always in range; past the end
    JavaScript would extend the array, which is written out with empty
    strings for the holes (a hole joins as the empty string). *)
Definition array_set (index : nat) (value : jsstring) (arr : list jsstring)
  : list jsstring :=
  if decide (index < length arr) then <[index := value]> arr
  else arr ++ replicate (index - length arr) [] ++ [value].

(** ** The state of the component *)

Inductive Screen : Set :=
  | landing | registration_form | verify | success | apple_signin.

Global Instance Screen_eq_dec : EqDecision Screen.
Proof. solve_decision. Defined.

Record Profile : Set := mkProfile {
  email : jsstring;
  salutation : jsstring;
  firstName : jsstring;
  surname : jsstring;
  phone : jsstring;
  birthday : jsstring;
  favoriteDesigners : jsstring
}.

(** The keys of the profile: the ones [handleProfileChange] is called with,
    and [phone], which [handlePhoneChange] writes. *)
Inductive Field : Set :=
  | f_email | f_salutation | f_firstName | f_surname | f_phone | f_birthday
  | f_favoriteDesigners.

(** The [useState] cells of [App], in the order of the source, followed by
    what the event loop holds for it: the number of [handleVerify] calls and
    of [handleEmailVerification] calls that are waiting on their delay. *)
Record State : Set := mkState {
  currentScreen : Screen;
  profile : Profile;
  verificationCode : list jsstring;
  isVerifying : bool;
  verificationError : jsstring;
  countdown : Z;
  canResend : bool;
  phoneError : jsstring;
  showBrandSuggestions : bool;
  brandSuggestions : list jsstring;
  isViaSocialAuth : bool;
  isEmailVerified : bool;
  verifyDelays : nat;
  emailDelays : nat
}.

Definition emptyProfile : Profile := mkProfile [] [] [] [] [] [] [].

Definition emptyCode : list jsstring := [[]; []; []; []; []; []].

Definition initialState : State :=
  mkState landing emptyProfile emptyCode false [] 60%Z false [] false []
          false false 0 0.

(** The setters of the [useState] cells. *)
Definition setCurrentScreen (v : Screen) (s : State) : State :=
  mkState v (profile s) (verificationCode s) (isVerifying s)
    (verificationError s) (countdown s) (canResend s) (phoneError s)
    (showBrandSuggestions s) (brandSuggestions s) (isViaSocialAuth s)
    (isEmailVerified s) (verifyDelays s) (emailDelays s).

Definition setProfile (f : Profile -> Profile) (s : State) : State :=
  mkState (currentScreen s) (f (profile s)) (verificationCode s) (isVerifying s)
    (verificationError s) (countdown s) (canResend s) (phoneError s)
    (showBrandSuggestions s) (brandSuggestions s) (isViaSocialAuth s)
    (isEmailVerified s) (verifyDelays s) (emailDelays s).

Definition setVerificationCode (v : list jsstring) (s : State) : State :=
  mkState (currentScreen s) (profile s) v (isVerifying s)
    (verificationError s) (countdown s) (canResend s) (phoneError s)
    (showBrandSuggestions s) (brandSuggestions s) (isViaSocialAuth s)
    (isEmailVerified s) (verifyDelays s) (emailDelays s).

Definition setIsVerifying (v : bool) (s : State) : State :=
  mkState (currentScreen s) (profile s) (verificationCode s) v
    (verificationError s) (countdown s) (canResend s) (phoneError s)
    (showBrandSuggestions s) (brandSuggestions s) (isViaSocialAuth s)
    (isEmailVerified s) (verifyDelays s) (emailDelays s).

Definition setVerificationError (v : jsstring) (s : State) : State :=
  mkState (currentScreen s) (profile s) (verificationCode s) (isVerifying s)
    v (countdown s) (canResend s) (phoneError s)
    (showBrandSuggestions s) (brandSuggestions s) (isViaSocialAuth s)
    (isEmailVerified s) (verifyDelays s) (emailDelays s).

Definition setCountdown (f : Z -> Z) (s : State) : State :=
  mkState (currentScreen s) (profile s) (verificationCode s) (isVerifying s)
    (verificationError s) (f (countdown s)) (canResend s) (phoneError s)
    (showBrandSuggestions s) (brandSuggestions s) (isViaSocialAuth s)
    (isEmailVerified s) (verifyDelays s) (emailDelays s).

Definition setCanResend (v : bool) (s : State) : State :=
  mkState (currentScreen s) (profile s) (verificationCode s) (isVerifying s)
    (verificationError s) (countdown s) v (phoneError s)
    (showBrandSuggestions s) (brandSuggestions s) (isViaSocialAuth s)
    (isEmailVerified s) (verifyDelays s) (emailDelays s).

Definition setPhoneError (v : jsstring) (s : State) : State :=
  mkState (currentScreen s) (profile s) (verificationCode s) (isVerifying s)
    (verificationError s) (countdown s) (canResend s) v
    (showBrandSuggestions s) (brandSuggestions s) (isViaSocialAuth s)
    (isEmailVerified s) (verifyDelays s) (emailDelays s).

Definition setShowBrandSuggestions (v : bool) (s : State) : State :=
  mkState (currentScreen s) (profile s) (verificationCode s) (isVerifying s)
    (verificationError s) (countdown s) (canResend s) (phoneError s)
    v (brandSuggestions s) (isViaSocialAuth s)
    (isEmailVerified s) (verifyDelays s) (emailDelays s).

Definition setBrandSuggestions (v : list jsstring) (s : State) : State :=
  mkState (currentScreen s) (profile s) (verificationCode s) (isVerifying s)
    (verificationError s) (countdown s) (canResend s) (phoneError s)
    (showBrandSuggestions s) v (isViaSocialAuth s)
    (isEmailVerified s) (verifyDelays s) (emailDelays s).

Definition setIsViaSocialAuth (v : bool) (s : State) : State :=
  mkState (currentScreen s) (profile s) (verificationCode s) (isVerifying s)
    (verificationError s) (countdown s) (canResend s) (phoneError s)
    (showBrandSuggestions s) (brandSuggestions s) v
    (isEmailVerified s) (verifyDelays s) (emailDelays s).

Definition setIsEmailVerified (v : bool) (s : State) : State :=
  mkState (currentScreen s) (profile s) (verificationCode s) (isVerifying s)
    (verificationError s) (countdown s) (canResend s) (phoneError s)
    (showBrandSuggestions s) (brandSuggestions s) (isViaSocialAuth s)
    v (verifyDelays s) (emailDelays s).

(** Starting and ending a simulated delay ([await new Promise(... setTimeout)]). *)
Definition setVerifyDelays (f : nat -> nat) (s : State) : State :=
  mkState (currentScreen s) (profile s) (verificationCode s) (isVerifying s)
    (verificationError s) (countdown s) (canResend s) (phoneError s)
    (showBrandSuggestions s) (brandSuggestions s) (isViaSocialAuth s)
    (isEmailVerified s) (f (verifyDelays s)) (emailDelays s).

Definition setEmailDelays (f : nat -> nat) (s : State) : State :=
  mkState (currentScreen s) (profile s) (verificationCode s) (isVerifying s)
    (verificationError s) (countdown s) (canResend s) (phoneError s)
    (showBrandSuggestions s) (brandSuggestions s) (isViaSocialAuth s)
    (isEmailVerified s) (verifyDelays s) (f (emailDelays s)).

(** [{ ...prev, [field]: value }] *)
Definition withField (field : Field) (value : jsstring) (prev : Profile) : Profile :=
  match field with
  | f_email =>
      mkProfile value (salutation prev) (firstName prev) (surname prev)
        (phone prev) (birthday prev) (favoriteDesigners prev)
  | f_salutation =>
      mkProfile (email prev) value (firstName prev) (surname prev)
        (phone prev) (birthday prev) (favoriteDesigners prev)
  | f_firstName =>
      mkProfile (email prev) (salutation prev) value (surname prev)
        (phone prev) (birthday prev) (favoriteDesigners prev)
  | f_surname =>
      mkProfile (email prev) (salutation prev) (firstName prev) value
        (phone prev) (birthday prev) (favoriteDesigners prev)
  | f_phone =>
      mkProfile (email prev) (salutation prev) (firstName prev) (surname prev)
        value (birthday prev) (favoriteDesigners prev)
  | f_birthday =>
      mkProfile (email prev) (salutation prev) (firstName prev) (surname prev)
        (phone prev) value (favoriteDesigners prev)
  | f_favoriteDesigners =>
      mkProfile (email prev) (salutation prev) (firstName prev) (surname prev)
        (phone prev) (birthday prev) value
  end.

(** ** Handlers shared by the two versions *)

(** The countdown effect.  It installs its interval only while the verify
    screen is shown and the countdown is positive, and it is torn down and
    run again whenever one of the two changes; [countdownTick] is the
    interval callback. *)
Definition timerRunning (s : State) : bool :=
  bool_decide (currentScreen s = verify) && (0 <? countdown s)%Z.

Definition countdownTick (s : State) : State :=
  if (countdown s <=? 1)%Z
  then setCountdown (fun _ => 0%Z) (setCanResend true s)
  else setCountdown (fun prev => (prev - 1)%Z) s.

Definition tick (s : State) : State :=
  if timerRunning s then countdownTick s else s.

(** Moving the focus to the neighbouring input is an effect on the page, not
    on the state, and is left out. *)
Definition handleOTPChange (index : nat) (value : jsstring) (s : State) : State :=
  let value := if 1 <? length value then take 1 value else value in
  let newCode := array_set index value (verificationCode s) in
  setVerificationError [] (setVerificationCode newCode s).

Definition otpLengthError : jsstring := js "Please enter a valid 6-digit code".

(** [handleVerify] up to its [await], and what runs when the delay of 1500ms
    has elapsed.  The promise never rejects, so the [catch] branch is dead. *)
Definition handleVerify (s : State) : State :=
  let code := join [] (verificationCode s) in
  if negb (length code =? 6) then setVerificationError otpLengthError s
  else setVerifyDelays S (setIsVerifying true s).

Definition handleVerify_resume (s : State) : State :=
  setVerifyDelays pred (setIsVerifying false (setCurrentScreen success s)).

(** Nothing follows the [await] of [handleResendCode]. *)
Definition handleResendCode (s : State) : State :=
  setCountdown (fun _ => 60%Z) (setCanResend false s).

Definition requiredFieldsAlert : jsstring := js "Please fill in all required fields".
Definition invalidPhoneAlert : jsstring := js "Please enter a valid UAE mobile number".

(** [handleVerification] returns the next state and the text it passed to
    [alert], if any. *)
Definition handleVerification (s : State) : State * option jsstring :=
  let p := profile s in
  if negb (truthy (salutation p)) || negb (truthy (firstName p))
     || negb (truthy (surname p)) || negb (truthy (phone p))
  then (s, Some requiredFieldsAlert)
  else if negb (validateUAEPhone (phone p)) then (s, Some invalidPhoneAlert)
  else (setCurrentScreen verify s, None).

Definition handleProfileChange (field : Field) (value : jsstring) (s : State) : State :=
  setProfile (withField field value) s.

Definition phoneFormatError : jsstring :=
  js "Please enter a valid UAE mobile number (05X XXX XXXX)".

Definition handlePhoneChange (value : jsstring) (s : State) : State :=
  let formattedPhone := formatPhoneNumber value in
  let s1 := setProfile (withField f_phone formattedPhone) s in
  if negb (truthy formattedPhone) then setPhoneError [] s1
  else if negb (validateUAEPhone formattedPhone) then setPhoneError phoneFormatError s1
  else setPhoneError [] s1.

Definition handleEmailVerification (s : State) : State :=
  setEmailDelays S s.

Definition handleEmailVerification_resume (s : State) : State :=
  setEmailDelays pred (setIsEmailVerified true s).

Definition getSelectedBrands (s : State) : list jsstring :=
  let fd := favoriteDesigners (profile s) in
  if truthy fd then trim <$> split comma fd else [].

(** Clearing the text of the designer input is an effect on the page. *)
Definition selectBrand (brand : jsstring) (s : State) : State :=
  let currentBrands := getSelectedBrands s in
  let s1 :=
    if negb (includes currentBrands brand)
    then handleProfileChange f_favoriteDesigners
           (join (js ", ") (currentBrands ++ [brand])) s
    else s in
  setShowBrandSuggestions false s1.

Definition removeBrand (brandToRemove : jsstring) (s : State) : State :=
  let currentBrands := getSelectedBrands s in
  let newBrands :=
    join (js ", ") (filter (fun brand => brand <> brandToRemove) currentBrands) in
  handleProfileChange f_favoriteDesigners newBrands s.

(** The button "Use a different registration method". *)
Definition useDifferentMethod (s : State) : State :=
  setCurrentScreen landing
    (setIsViaSocialAuth false (setProfile (fun _ => emptyProfile) s)).

(** The button "Continue" under the email field of the landing screen. *)
Definition continueWithEmail (s : State) : State :=
  if truthy (email (profile s)) then setCurrentScreen registration_form s else s.

Inductive Provider : Set := apple | google.

Inductive SalutationOption : Set := Mr | Mrs | Miss.

Definition optionValue (o : SalutationOption) : jsstring :=
  match o with Mr => js "Mr" | Mrs => js "Mrs" | Miss => js "Miss" end.

(** The retry link is rendered under this condition. *)
Definition retryShown (s : State) : bool :=
  negb (isEmailVerified s) && negb (isViaSocialAuth s).

(** What the user, the timer and the elapsed delays can do to the component. *)
Inductive Action : Set :=
  | ClickContinueWithApple
  | ClickContinueWithGoogle
  | ChangeEmail (value : jsstring)
  | ClickContinueWithEmail
  | ClickRetryEmail
  | ChangeSalutation (o : SalutationOption)
  | ChangeFirstName (value : jsstring)
  | ChangeSurname (value : jsstring)
  | ChangePhone (value : jsstring)
  | ChangeBirthday (value : jsstring)
  | ChangeDesigner (value : jsstring)
  | FocusDesigner
  | ClickSuggestion (i : nat)
  | ClickRemoveBrand (i : nat)
  | MouseDownOutside
  | ClickContinue
  | ClickUseDifferentMethod
  | ClickBackToForm
  | ChangeOTP (index : nat) (value : jsstring)
  | ClickVerify
  | ClickResend
  | ClickCloseAppleDialog
  | ClickContinueWithPassword
  | TimerTick
  | VerifyDelayElapsed
  | EmailDelayElapsed.

(** The timer and the two delays act on any screen. *)
Definition background (a : Action) (s : State) : option State :=
  match a with
  | TimerTick => Some (tick s)
  | VerifyDelayElapsed =>
      Some (if 0 <? verifyDelays s then handleVerify_resume s else s)
  | EmailDelayElapsed =>
      Some (if 0 <? emailDelays s then handleEmailVerification_resume s else s)
  | _ => None
  end.

(** The verify screen is rendered the same by both versions: the close
    button and "Edit", one input per slot of the code, "Verify" (disabled
    while verifying) and "Resend Code" (rendered once the countdown is not
    positive). *)
Definition onVerifyScreen (a : Action) (s : State) : State :=
  match a with
  | ClickBackToForm => setCurrentScreen registration_form s
  | ChangeOTP index value =>
      if decide (index < length (verificationCode s))
      then handleOTPChange index value s else s
  | ClickVerify => if isVerifying s then s else handleVerify s
  | ClickResend => if (0 <? countdown s)%Z then s else handleResendCode s
  | _ => s
  end.

(** Runs and reachable states of a version, given what its screens do. *)
Section Runs.
Variable dispatch : Action -> State -> State.

Definition run (acts : list Action) (s : State) : State :=
  foldl (fun s a => dispatch a s) s acts.

Inductive reachable : State -> Prop :=
  | reach_init : reachable initialState
  | reach_step a s : reachable s -> reachable (dispatch a s).

(** States reached without having shown the verify screen before. *)
Inductive beforeVerify : State -> Prop :=
  | before_init : beforeVerify initialState
  | before_step a s :
      beforeVerify s -> currentScreen s <> verify -> beforeVerify (dispatch a s).
End Runs.

(** ** The brand suggestions

    [toLowerCase] is the JavaScript built-in, with the case mapping of the
    Unicode tables behind it; it is kept abstract.  The list of brands is the
    constant [LUXURY_BRANDS] of the version at hand. *)
Section BrandPicker.
Variable toLowerCase : jsstring -> jsstring.
Variable LUXURY_BRANDS : list jsstring.

(** [getSelectedBrands] is the one of the render that installed the handler:
    it reads the profile as it was before this change. *)
Definition handleDesignerInput (value : jsstring) (s : State) : State :=
  let s1 := handleProfileChange f_favoriteDesigners value s in
  if 0 <? length value then
    let suggestions :=
      filter (fun brand =>
                str_includes (toLowerCase brand) (toLowerCase value)
                && negb (includes (getSelectedBrands s) brand))
             LUXURY_BRANDS in
    setShowBrandSuggestions (0 <? length suggestions)
      (setBrandSuggestions suggestions s1)
  else setShowBrandSuggestions false s1.

(** The [onFocus] of the designer input. *)
Definition designerFocus (s : State) : State :=
  let suggestions :=
    filter (fun brand => negb (includes (getSelectedBrands s) brand))
           LUXURY_BRANDS in
  setShowBrandSuggestions (0 <? length suggestions)
    (setBrandSuggestions suggestions s).
End BrandPicker.

(** ** The version with the Apple sign-in overlay *)
Module WithAppleScreen.

Definition LUXURY_BRANDS : list jsstring :=
  [ js "Louis Vuitton"; js "Chanel"; js "Gucci"; js "Herm" ++ [232%N] ++ js "s";
    js "Dior"; js "Prada"; js "Burberry"; js "Versace"; js "Balenciaga";
    js "Givenchy" ].

(** The function is [async] but awaits nothing: it runs to its end at once.
    The provider is not looked at. *)
Definition handleSocialAuth (provider : Provider) (s : State) : State :=
  let s1 :=
    setProfile (fun prev =>
      mkProfile (js "user@example.com") [] (js "John") (js "Doe") [] [] []) s in
  let s2 := setIsEmailVerified true s1 in
  let s3 := setIsViaSocialAuth true s2 in
  setCurrentScreen success s3.

(** The elements each screen renders and the handlers they are given.  The
    brand picker is declared in this version but no element uses it. *)
Definition dispatch (a : Action) (s : State) : State :=
  match background a s with
  | Some s' => s'
  | None =>
      match currentScreen s with
      | landing =>
          match a with
          | ClickContinueWithApple => setCurrentScreen apple_signin s
          | ClickContinueWithGoogle => handleSocialAuth google s
          | ChangeEmail value => handleProfileChange f_email value s
          | ClickContinueWithEmail => continueWithEmail s
          | _ => s
          end
      | registration_form =>
          match a with
          | ClickRetryEmail =>
              if retryShown s then handleEmailVerification s else s
          | ChangeSalutation o => handleProfileChange f_salutation (optionValue o) s
          | ChangeFirstName value =>
              if isViaSocialAuth s then s else handleProfileChange f_firstName value s
          | ChangeSurname value =>
              if isViaSocialAuth s then s else handleProfileChange f_surname value s
          | ChangePhone value => handlePhoneChange value s
          | ClickContinue => fst (handleVerification s)
          | ClickUseDifferentMethod => useDifferentMethod s
          | _ => s
          end
      | verify => onVerifyScreen a s
      | success =>
          match a with
          | ChangeSalutation o => handleProfileChange f_salutation (optionValue o) s
          | ChangeFirstName value => handleProfileChange f_firstName value s
          | ChangeSurname value => handleProfileChange f_surname value s
          | ClickRetryEmail =>
              if retryShown s then handleEmailVerification s else s
          | ChangePhone value => handlePhoneChange value s
          | ChangeBirthday value => handleProfileChange f_birthday value s
          | _ => s
          end
      | apple_signin =>
          match a with
          | ClickCloseAppleDialog => setCurrentScreen landing s
          | ClickContinueWithPassword => handleSocialAuth apple s
          | _ => s
          end
      end
  end.

End WithAppleScreen.

(** ** The version of src/App.tsx *)
Module AppTsx.

(** The accented letter of the fourth brand is stored as two code units. *)
Definition LUXURY_BRANDS : list jsstring :=
  [ js "Louis Vuitton"; js "Chanel"; js "Gucci";
    js "Herm" ++ [195%N; 168%N] ++ js "s";
    js "Dior"; js "Prada"; js "Burberry"; js "Versace"; js "Balenciaga";
    js "Givenchy" ].

Definition handleSocialAuth (provider : Provider) (s : State) : State :=
  let s1 :=
    setProfile (fun prev =>
      mkProfile (js "johndoe@icloud.com") (salutation prev) (js "John") (js "Doe")
        (phone prev) (birthday prev) (favoriteDesigners prev)) s in
  let s2 := setIsEmailVerified true s1 in
  let s3 := setIsViaSocialAuth true s2 in
  setCurrentScreen registration_form s3.

Section Wiring.
Variable toLowerCase : jsstring -> jsstring.

(** This version has no overlay: both social buttons call the handler.  The
    brand picker sits on the registration form, whose container also holds
    the reference the mouse-down listener tests. *)
Definition dispatch (a : Action) (s : State) : State :=
  match background a s with
  | Some s' => s'
  | None =>
      match currentScreen s with
      | landing =>
          match a with
          | ClickContinueWithApple => handleSocialAuth apple s
          | ClickContinueWithGoogle => handleSocialAuth google s
          | ChangeEmail value => handleProfileChange f_email value s
          | ClickContinueWithEmail => continueWithEmail s
          | _ => s
          end
      | registration_form =>
          match a with
          | ChangeSalutation o => handleProfileChange f_salutation (optionValue o) s
          | ChangeFirstName value =>
              if isViaSocialAuth s then s else handleProfileChange f_firstName value s
          | ChangeSurname value =>
              if isViaSocialAuth s then s else handleProfileChange f_surname value s
          | ChangePhone value => handlePhoneChange value s
          | ChangeBirthday value => handleProfileChange f_birthday value s
          | ClickRemoveBrand i =>
              match getSelectedBrands s !! i with
              | Some brand => removeBrand brand s
              | None => s
              end
          | ChangeDesigner value =>
              handleDesignerInput toLowerCase LUXURY_BRANDS value s
          | FocusDesigner => designerFocus LUXURY_BRANDS s
          | ClickSuggestion i =>
              if showBrandSuggestions s then
                match brandSuggestions s !! i with
                | Some brand => selectBrand brand s
                | None => s
                end
              else s
          | MouseDownOutside => setShowBrandSuggestions false s
          | ClickContinue => fst (handleVerification s)
          | ClickUseDifferentMethod => useDifferentMethod s
          | _ => s
          end
      | verify => onVerifyScreen a s
      | success =>
          match a with
          | ClickRetryEmail =>
              if retryShown s then handleEmailVerification s else s
          | _ => s
          end
      | apple_signin => s
      end
  end.
End Wiring.

End AppTsx.

(** ** Notions used in the statements *)

(** The format as a function of the digits alone. *)
Definition layout (numbers : jsstring) : jsstring :=
  if length numbers <=? 2 then numbers
  else if length numbers <=? 5 then
    slice 0 2 numbers ++ space ++ slice_from 2 numbers
  else if length numbers <=? 8 then
    slice 0 2 numbers ++ space ++ slice 2 5 numbers ++ space ++ slice_from 5 numbers
  else
    slice 0 2 numbers ++ space ++ slice 2 5 numbers ++ space ++ slice 5 9 numbers.

(** The verify screen with the given slots. *)
Definition codeOf (slots : list jsstring) (s : State) : State :=
  setVerificationCode slots (setCurrentScreen verify s).

(** A joined list splits back into its entries, each but the first with the
    space of the separator in front. *)
Definition spaced (xs : list jsstring) : list jsstring :=
  match xs with
  | [] => [[]]
  | x :: rest => x :: ((fun y => 32%N :: y) <$> rest)
  end.

(** An entry that survives a round through the joined string: no comma in
    it, nothing for [trim] to remove. *)
Definition plain (b : jsstring) : Prop := (comma ∉ b) /\ trim b = b.

Global Instance plain_dec b : Decision (plain b).
Proof. unfold plain. apply _. Defined.

(** The three cells the verify screen works on. *)
Definition codeAndTimer (s : State) : list jsstring * Z * bool :=
  (verificationCode s, countdown s, canResend s).

(** Case analysis on every conditional of the goal. *)
Ltac split_conditionals :=
  repeat match goal with
    | |- context [if ?c then _ else _] => destruct c
    | |- context [match ?x with _ => _ end] => destruct x
    end.

(** A step is the timer callback, something the verify screen offers, or
    leaves the code and the timer alone. *)
Definition stepShape (dispatch : Action -> State -> State) : Prop :=
  forall a s,
    dispatch a s = tick s
    \/ (currentScreen s = verify /\ dispatch a s = onVerifyScreen a s)
    \/ codeAndTimer (dispatch a s) = codeAndTimer s.

(** The countdown stays between 0 and 60 and the resend flag is up exactly
    at 0. *)
Definition timerInv (s : State) : Prop :=
  (0 <= countdown s <= 60)%Z /\ (canResend s = true <-> countdown s = 0%Z).

(** The code keeps its six slots, each of at most one code unit. *)
Definition codeInv (s : State) : Prop :=
  length (verificationCode s) = 6
  /\ Forall (fun slot => length slot <= 1) (verificationCode s).

(** The guard of "Continue" on the registration form. *)
Definition mayContinue (s : State) : Prop :=
  salutation (profile s) <> [] /\ firstName (profile s) <> []
  /\ surname (profile s) <> [] /\ phone (profile s) <> []
  /\ validateUAEPhone (phone (profile s)) = true.

(** The run of the second visit: the form is filled in and continued, a
    digit is typed into the first slot, a second passes, the user goes back
    with "Edit". *)
Definition secondVisit : list Action :=
  [ ChangeEmail (js "a@b.com"); ClickContinueWithEmail; ChangeSalutation Mr;
    ChangeFirstName (js "A"); ChangeSurname (js "B");
    ChangePhone (js "052223344"); ClickContinue;
    ChangeOTP 0 (js "1"); TimerTick; ClickBackToForm ].

(** The form filled in for the first time, "Continue" not yet pressed. *)
Definition firstVisit : list Action :=
  [ ChangeEmail (js "a@b.com"); ClickContinueWithEmail; ChangeSalutation Mr;
    ChangeFirstName (js "A"); ChangeSurname (js "B");
    ChangePhone (js "052223344") ].

(** [profile[field]] *)
Definition readField (field : Field) (p : Profile) : jsstring :=
  match field with
  | f_email => email p
  | f_salutation => salutation p
  | f_firstName => firstName p
  | f_surname => surname p
  | f_phone => phone p
  | f_birthday => birthday p
  | f_favoriteDesigners => favoriteDesigners p
  end.

(** The timer callback fired [n] times in a row. *)
Fixpoint ticks (n : nat) (s : State) : State :=
  match n with
  | 0 => s
  | S n => ticks n (tick s)
  end.

(** One code unit typed into each slot in turn, from slot [start] on. *)
Fixpoint typeDigits (start : nat) (ds : list N) (s : State) : State :=
  match ds with
  | [] => s
  | d :: rest => typeDigits (S start) rest (handleOTPChange start [d] s)
  end.

(** The stored phone is a formatted one, and the inline error says whether a
    non-empty stored phone is valid. *)
Definition phoneInv (s : State) : Prop :=
  formatPhoneNumber (phone (profile s)) = phone (profile s)
  /\ (validateUAEPhone (phone (profile s)) = true -> phoneError s = [])
  /\ (phone (profile s) <> [] -> validateUAEPhone (phone (profile s)) = false ->
      phoneError s = phoneFormatError).

(** What being on a screen says about the profile. *)
Definition screenInv (s : State) : Prop :=
  (currentScreen s = verify -> mayContinue s)
  /\ (currentScreen s = registration_form \/ currentScreen s = verify ->
      email (profile s) <> []).

(** The two email flags, and the verification under way. *)
Definition flagsInv (s : State) : Prop :=
  (isViaSocialAuth s = true -> isEmailVerified s = true)
  /\ (isVerifying s = true <-> verifyDelays s = 1)
  /\ verifyDelays s <= 1.

Definition flowInv (s : State) : Prop := phoneInv s /\ screenInv s /\ flagsInv s.

(** Case analysis on every conditional of the goal, the case kept. *)
Ltac cases_eqn :=
  repeat match goal with
    | |- context [if ?c then _ else _] => destruct c eqn:?
    | |- context [match ?x with _ => _ end] => destruct x eqn:?
    end.

(** * Properties *)

(** ** Digits, slices and the phone format *)

Example format_partial : formatPhoneNumber (js "0521") = js "05 21".
Proof. vm_compute. reflexivity. Qed.

Example format_drops_other_characters :
  formatPhoneNumber (js "+971 (05) 2-123456789") = js "97 105 2123".
Proof. vm_compute. reflexivity. Qed.

Example validate_formatted : validateUAEPhone (js "05 212 3456") = true.
Proof. vm_compute. reflexivity. Qed.

Lemma strip_all_digits (l : jsstring) :
  Forall is_digit l -> strip_non_digits l = l.
Proof.
  unfold strip_non_digits.
  induction 1 as [|c l Hc _ IH]; [reflexivity|].
  rewrite filter_cons_True by exact Hc. f_equal. exact IH.
Qed.

Lemma strip_is_digits (value : jsstring) :
  Forall is_digit (strip_non_digits value).
Proof.
  apply Forall_forall. intros c Hc.
  apply list_elem_of_filter in Hc. tauto.
Qed.

Lemma strip_app (a b : jsstring) :
  strip_non_digits (a ++ b) = strip_non_digits a ++ strip_non_digits b.
Proof. apply filter_app. Qed.

Lemma strip_space : strip_non_digits space = [].
Proof. reflexivity. Qed.

Lemma slice_digits a b (l : jsstring) :
  Forall is_digit l -> strip_non_digits (slice a b l) = slice a b l.
Proof.
  intros H. apply strip_all_digits. unfold slice.
  apply Forall_take, Forall_drop, H.
Qed.

Lemma slice_from_digits a (l : jsstring) :
  Forall is_digit l -> strip_non_digits (slice_from a l) = slice_from a l.
Proof. intros H. apply strip_all_digits, Forall_drop, H. Qed.

(** The three slices of the format are consecutive pieces of the digits. *)
Lemma slices_2_5_9 (l : jsstring) :
  slice 0 2 l ++ slice 2 5 l ++ slice 5 9 l = take 9 l.
Proof.
  unfold slice. simpl. rewrite drop_0.
  change 5 with (2 + 3) at 1. rewrite <- (drop_drop l 3 2).
  rewrite (take_take_drop (drop 2 l) 3 4).
  rewrite (take_take_drop l 2 (3 + 4)). reflexivity.
Qed.

Lemma slices_2_5_rest (l : jsstring) :
  slice 0 2 l ++ slice 2 5 l ++ slice_from 5 l = l.
Proof.
  unfold slice, slice_from. simpl. rewrite drop_0.
  change 5 with (2 + 3). rewrite <- (drop_drop l 3 2).
  rewrite (take_drop 3 (drop 2 l)). apply take_drop.
Qed.

Lemma slices_2_rest (l : jsstring) : slice 0 2 l ++ slice_from 2 l = l.
Proof. unfold slice, slice_from. simpl. rewrite drop_0. apply take_drop. Qed.

Lemma format_layout (value : jsstring) :
  formatPhoneNumber value = layout (strip_non_digits value).
Proof. reflexivity. Qed.

Lemma strip_layout (numbers : jsstring) :
  Forall is_digit numbers -> strip_non_digits (layout numbers) = take 9 numbers.
Proof.
  intros H. unfold layout.
  destruct (Nat.leb_spec (length numbers) 2) as [L2|L2].
  { rewrite strip_all_digits by exact H. symmetry. apply take_ge. lia. }
  destruct (Nat.leb_spec (length numbers) 5) as [L5|L5].
  { rewrite !strip_app, strip_space, slice_digits, slice_from_digits by exact H.
    simpl. rewrite slices_2_rest. symmetry. apply take_ge. lia. }
  destruct (Nat.leb_spec (length numbers) 8) as [L8|L8].
  { rewrite !strip_app, strip_space, !slice_digits, slice_from_digits by exact H.
    simpl. rewrite slices_2_5_rest. symmetry. apply take_ge. lia. }
  rewrite !strip_app, strip_space, !slice_digits by exact H.
  simpl. apply slices_2_5_9.
Qed.

(** Only the first nine digits count. *)
Lemma layout_take_9 (numbers : jsstring) :
  layout (take 9 numbers) = layout numbers.
Proof.
  destruct (decide (length numbers <= 9)) as [L|L].
  { rewrite take_ge by exact L. reflexivity. }
  unfold layout. rewrite length_take.
  replace (9 `min` length numbers) with 9 by lia.
  destruct (Nat.leb_spec (length numbers) 2); [lia|].
  destruct (Nat.leb_spec (length numbers) 5); [lia|].
  destruct (Nat.leb_spec (length numbers) 8); [lia|].
  simpl. unfold slice. simpl. rewrite !drop_0.
  rewrite take_take. simpl.
  rewrite !(take_drop_commute (take 9 numbers)), !take_take.
  simpl. rewrite !(take_drop_commute numbers). reflexivity.
Qed.

Lemma strip_format (s : jsstring) :
  strip_non_digits (formatPhoneNumber s) = take 9 (strip_non_digits s).
Proof. rewrite format_layout. apply strip_layout, strip_is_digits. Qed.

(** C2. For every input string, the digits of [formatPhoneNumber] are the
    digits of the input cut to the first nine, and formatting a formatted
    string changes nothing. *)
Theorem formatPhoneNumber_digits_idempotent (s : jsstring) :
  strip_non_digits (formatPhoneNumber s) = take 9 (strip_non_digits s)
  /\ formatPhoneNumber (formatPhoneNumber s) = formatPhoneNumber s.
Proof.
  split; [apply strip_format|].
  rewrite (format_layout (formatPhoneNumber s)), strip_format, layout_take_9.
  reflexivity.
Qed.

Lemma startsWith_true (p s : jsstring) :
  startsWith p s = true <-> exists rest, s = p ++ rest.
Proof. unfold startsWith. rewrite bool_decide_eq_true. reflexivity. Qed.

Lemma validateUAEPhone_true (p : jsstring) :
  validateUAEPhone p = true <->
  length (strip_non_digits p) = 9
  /\ exists rest, strip_non_digits p = js "05" ++ rest.
Proof.
  unfold validateUAEPhone. cbv zeta.
  rewrite andb_true_iff, Nat.eqb_eq, startsWith_true. reflexivity.
Qed.

(** C3. [validateUAEPhone] answers true exactly when the digits of its
    argument are nine and begin with 05; any other number of digits, any
    other beginning, and the empty string give false. *)
Theorem validateUAEPhone_exactly (p : jsstring) :
  (validateUAEPhone p = true <->
     length (strip_non_digits p) = 9
     /\ exists rest, strip_non_digits p = js "05" ++ rest)
  /\ (length (strip_non_digits p) <> 9 -> validateUAEPhone p = false)
  /\ ((forall rest, strip_non_digits p <> js "05" ++ rest) ->
      validateUAEPhone p = false)
  /\ validateUAEPhone [] = false.
Proof.
  split; [apply validateUAEPhone_true|]. split; [|split; [|reflexivity]].
  - intros Hlen. apply not_true_is_false. intros Ht.
    apply validateUAEPhone_true in Ht. tauto.
  - intros Hpre. apply not_true_is_false. intros Ht.
    apply validateUAEPhone_true in Ht. destruct Ht as [_ [rest Hr]].
    exact (Hpre rest Hr).
Qed.

Lemma validateUAEPhone_exactly_witness :
  validateUAEPhone (js "05 212 3456") = true
  /\ validateUAEPhone (js "0521234567") = false
  /\ validateUAEPhone (js "04 212 3456") = false.
Proof.
  split; [|split].
  - apply (proj1 (validateUAEPhone_exactly (js "05 212 3456"))).
    split; [reflexivity|]. exists (js "2123456"). reflexivity.
  - apply (proj1 (proj2 (validateUAEPhone_exactly (js "0521234567")))).
    vm_compute. discriminate.
  - apply (proj1 (proj2 (proj2 (validateUAEPhone_exactly (js "04 212 3456"))))).
    intros rest. vm_compute. discriminate.
Defined.

(** C4. The formatter on 052123456 and the display form of the result,
    code unit for code unit; the display form keeps the leading zero after
    the country prefix. *)
Theorem format_and_display_052123456 :
  formatPhoneNumber (js "052123456") = js "05 212 3456"
  /\ formatPhoneForDisplay (js "05 212 3456") = js "+971 05 212 3456".
Proof. split; vm_compute; reflexivity. Qed.

(** ** The phone field *)

Lemma layout_nil_iff (numbers : jsstring) : layout numbers = [] <-> numbers = [].
Proof.
  split; [|intros ->; reflexivity].
  unfold layout.
  destruct (length numbers <=? 2); [tauto|].
  destruct numbers as [|a [|b r]]; [tauto| |];
    repeat match goal with |- context [if ?c then _ else _] => destruct c end;
    discriminate.
Qed.

(** C8. A phone edit stores the formatted string and sets the phone error
    from it alone: no error for the empty string, the invalid-number message
    for a non-empty string that fails the validation, no error otherwise. *)
Theorem handlePhoneChange_error (raw : jsstring) (s : State) :
  let s' := handlePhoneChange raw s in
  let stored := phone (profile s') in
  stored = formatPhoneNumber raw
  /\ (stored = [] -> phoneError s' = [])
  /\ (stored <> [] -> validateUAEPhone stored = false ->
      phoneError s' = phoneFormatError)
  /\ (stored <> [] -> validateUAEPhone stored = true -> phoneError s' = []).
Proof.
  cbv zeta. unfold handlePhoneChange. cbv zeta.
  destruct (formatPhoneNumber raw) as [|c r] eqn:F; simpl.
  - repeat split; congruence.
  - destruct (validateUAEPhone (c :: r)) eqn:V; simpl;
      repeat split; congruence.
Qed.

Lemma handlePhoneChange_error_witness :
  phoneError (handlePhoneChange [] initialState) = []
  /\ phoneError (handlePhoneChange (js "0521") initialState) = phoneFormatError
  /\ phoneError (handlePhoneChange (js "052123456") initialState) = [].
Proof.
  split; [|split].
  - apply (proj1 (proj2 (handlePhoneChange_error [] initialState))).
    reflexivity.
  - apply (proj1 (proj2 (proj2 (handlePhoneChange_error (js "0521") initialState)))).
    + vm_compute. discriminate.
    + vm_compute. reflexivity.
  - apply (proj2 (proj2 (proj2 (handlePhoneChange_error (js "052123456") initialState)))).
    + vm_compute. discriminate.
    + vm_compute. reflexivity.
Defined.

(** X11. In terms of the typed text: after a phone edit the inline error is
    absent exactly when the text has no digit, or has at least nine and they
    begin with 05; digits typed after the ninth are dropped, not reported. *)
Lemma handlePhoneChange_no_error_iff (raw : jsstring) (s : State) :
  phoneError (handlePhoneChange raw s) = [] <->
  strip_non_digits raw = []
  \/ (9 <= length (strip_non_digits raw)
      /\ exists rest, strip_non_digits raw = js "05" ++ rest).
Proof.
  pose proof (validateUAEPhone_true (formatPhoneNumber raw)) as V.
  rewrite strip_format in V.
  rewrite <- (layout_nil_iff (strip_non_digits raw)), <- format_layout.
  unfold handlePhoneChange. cbv zeta.
  destruct (formatPhoneNumber raw) as [|c r] eqn:F; cbn [truthy negb].
  { split; [intros _; left|]; reflexivity. }
  destruct (validateUAEPhone (c :: r)) eqn:Va; cbn [negb].
  - split; [|reflexivity]. intros _. right.
    destruct (proj1 V eq_refl) as [L [rest R]].
    rewrite length_take in L. split; [lia|].
    exists (rest ++ drop 9 (strip_non_digits raw)).
    rewrite app_assoc, <- R. symmetry. apply take_drop.
  - split; [discriminate|].
    intros [Z|[L [rest R]]]; [discriminate Z|]. exfalso.
    assert (false = true); [|discriminate].
    apply V. rewrite length_take. split; [lia|].
    exists (take 7 rest). rewrite R. reflexivity.
Qed.

(** ** Social sign-in *)

(** C5. The two versions of [handleSocialAuth] end on different screens: the
    one with the Apple overlay on the success screen, the one of App.tsx on
    the registration form; so the two flows differ after a social sign-in,
    whatever the state and the provider. *)
Theorem handleSocialAuth_targets_differ (provider : Provider) (s : State) :
  currentScreen (WithAppleScreen.handleSocialAuth provider s) = success
  /\ currentScreen (AppTsx.handleSocialAuth provider s) = registration_form
  /\ WithAppleScreen.handleSocialAuth provider s
     <> AppTsx.handleSocialAuth provider s.
Proof.
  split; [reflexivity|]. split; [reflexivity|].
  intros E. apply (f_equal currentScreen) in E. discriminate E.
Qed.

(** Both set the same two flags. *)
Lemma handleSocialAuth_flags (provider : Provider) (s : State) :
  isEmailVerified (WithAppleScreen.handleSocialAuth provider s) = true
  /\ isViaSocialAuth (WithAppleScreen.handleSocialAuth provider s) = true
  /\ isEmailVerified (AppTsx.handleSocialAuth provider s) = true
  /\ isViaSocialAuth (AppTsx.handleSocialAuth provider s) = true.
Proof. repeat split. Qed.

(** From the landing screen the "Continue with Google" button shows the
    difference in the runs themselves. *)
Example google_from_landing (toLowerCase : jsstring -> jsstring) :
  currentScreen
    (run WithAppleScreen.dispatch [ClickContinueWithGoogle] initialState) = success
  /\ currentScreen
    (run (AppTsx.dispatch toLowerCase) [ClickContinueWithGoogle] initialState)
     = registration_form.
Proof. split; reflexivity. Qed.

(** ** Submitting the code *)

(** C6. Submitting a code whose slots join to fewer than six characters sets
    the length error, keeps the screen and starts no delay; submitting one
    of exactly six characters starts the delay, and when it has elapsed the
    screen is the success screen and the error is as it was. *)
Theorem handleVerify_by_length (s : State) :
  (length (join [] (verificationCode s)) < 6 ->
     verificationError (handleVerify s) = otpLengthError
     /\ currentScreen (handleVerify s) = currentScreen s
     /\ verifyDelays (handleVerify s) = verifyDelays s)
  /\ (length (join [] (verificationCode s)) = 6 ->
     verifyDelays (handleVerify s) = S (verifyDelays s)
     /\ currentScreen (handleVerify s) = currentScreen s
     /\ verificationError (handleVerify s) = verificationError s
     /\ currentScreen (handleVerify_resume (handleVerify s)) = success
     /\ verificationError (handleVerify_resume (handleVerify s))
        = verificationError s).
Proof.
  unfold handleVerify. cbv zeta. split; intros L.
  - destruct (Nat.eqb_spec (length (join [] (verificationCode s))) 6) as [E|_];
      [lia|]. simpl. repeat split.
  - rewrite L. simpl. repeat split.
Qed.

Lemma handleVerify_by_length_witness :
  (let s := codeOf [js "1"; js "2"; []; []; []; []] initialState in
   verificationError (handleVerify s) = otpLengthError
   /\ currentScreen (handleVerify s) = verify)
  /\ (let s := codeOf [js "1"; js "2"; js "3"; js "4"; js "5"; js "6"] initialState in
      currentScreen (handleVerify_resume (handleVerify s)) = success
      /\ verificationError (handleVerify_resume (handleVerify s)) = []).
Proof.
  split; cbv zeta.
  - destruct (proj1 (handleVerify_by_length
                       (codeOf [js "1"; js "2"; []; []; []; []] initialState)))
      as (E & Sc & _); [vm_compute; lia|].
    split; [exact E | exact Sc].
  - destruct (proj2 (handleVerify_by_length
                       (codeOf [js "1"; js "2"; js "3"; js "4"; js "5"; js "6"]
                               initialState)))
      as (_ & _ & _ & Sc & E); [vm_compute; reflexivity|].
    split; [exact Sc | exact E].
Defined.

(** The elapsed delay is taken by the state machine of both versions, and
    "Verify" is [handleVerify] unless a verification is under way. *)
Lemma verify_click_then_delay (toLowerCase : jsstring -> jsstring) (s : State) :
  currentScreen s = verify -> isVerifying s = false ->
  length (join [] (verificationCode s)) = 6 ->
  currentScreen (run WithAppleScreen.dispatch [ClickVerify; VerifyDelayElapsed] s)
    = success
  /\ currentScreen
       (run (AppTsx.dispatch toLowerCase) [ClickVerify; VerifyDelayElapsed] s)
     = success.
Proof.
  intros Sc V L.
  unfold run, WithAppleScreen.dispatch, AppTsx.dispatch. simpl.
  rewrite Sc. simpl. rewrite V. unfold handleVerify. cbv zeta. rewrite L.
  simpl. split; reflexivity.
Qed.

(** ** Abandoning the registration *)

(** C10. "Use a different registration method" empties every field of the
    profile and clears the social sign-in flag, and it leaves the
    verified-email flag as it was: an email marked verified by a social
    sign-in stays marked verified, with the email itself gone. *)
Theorem useDifferentMethod_keeps_emailVerified (toLowerCase : jsstring -> jsstring) :
  (forall s : State,
     profile (useDifferentMethod s) = emptyProfile
     /\ isViaSocialAuth (useDifferentMethod s) = false
     /\ currentScreen (useDifferentMethod s) = landing
     /\ isEmailVerified (useDifferentMethod s) = isEmailVerified s)
  /\ (let s := run (AppTsx.dispatch toLowerCase)
                 [ClickContinueWithGoogle; ClickUseDifferentMethod] initialState in
      isEmailVerified s = true /\ email (profile s) = []
      /\ isViaSocialAuth s = false)
  /\ (let s := run WithAppleScreen.dispatch
                 [ChangeEmail (js "a@b.com"); ClickContinueWithEmail;
                  ClickRetryEmail; EmailDelayElapsed; ClickUseDifferentMethod]
                 initialState in
      isEmailVerified s = true /\ email (profile s) = []).
Proof.
  split; [intros s; repeat split|]. split; repeat split.
Qed.

(** ** Splitting, trimming and joining the list of brands *)

Example split_keeps_empty_pieces :
  split comma (js "a,,b") = [js "a"; []; js "b"] /\ split comma [] = [[]].
Proof. split; vm_compute; reflexivity. Qed.

Example trim_both_ends : trim (js "  Louis Vuitton ") = js "Louis Vuitton".
Proof. vm_compute. reflexivity. Qed.

Lemma split_not_nil (sep : N) (s : jsstring) : split sep s <> [].
Proof.
  induction s as [|c r IH]; simpl; [discriminate|].
  destruct (decide (c = sep)); [discriminate|].
  destruct (split sep r); [contradiction|discriminate].
Qed.

Lemma split_cons_other (sep c : N) (s : jsstring) :
  c <> sep ->
  exists h t, split sep s = h :: t /\ split sep (c :: s) = (c :: h) :: t.
Proof.
  intros Hc. simpl. destruct (decide (c = sep)); [contradiction|].
  destruct (split sep s) as [|h t] eqn:E.
  - destruct (split_not_nil sep s E).
  - exists h, t. split; reflexivity.
Qed.

Lemma split_pieces_free (sep : N) (s : jsstring) :
  Forall (fun piece => sep ∉ piece) (split sep s).
Proof.
  induction s as [|c r IH]; simpl.
  - repeat constructor. apply not_elem_of_nil.
  - destruct (decide (c = sep)) as [->|Hc].
    + constructor; [apply not_elem_of_nil | exact IH].
    + destruct (split sep r) as [|h t]; [contradiction IH || inversion IH|].
      * repeat constructor. intros H. apply list_elem_of_singleton in H. congruence.
      * inversion IH as [|? ? Hh Ht]; subst. constructor; [|exact Ht].
        intros H. apply elem_of_cons in H. destruct H; congruence.
Qed.

Lemma split_app_sep (sep : N) (x r : jsstring) :
  sep ∉ x -> split sep (x ++ sep :: r) = x :: split sep r.
Proof.
  induction x as [|c x IH]; intros Hx; simpl.
  - destruct (decide (sep = sep)); [reflexivity|contradiction].
  - apply not_elem_of_cons in Hx. destruct Hx as [Hc Hx].
    destruct (decide (c = sep)); [congruence|].
    rewrite (IH Hx). reflexivity.
Qed.

Lemma split_free (sep : N) (x : jsstring) : sep ∉ x -> split sep x = [x].
Proof.
  induction x as [|c x IH]; intros Hx; simpl; [reflexivity|].
  apply not_elem_of_cons in Hx. destruct Hx as [Hc Hx].
  destruct (decide (c = sep)); [congruence|].
  rewrite (IH Hx). reflexivity.
Qed.

Lemma split_join (xs : list jsstring) :
  Forall (fun x => comma ∉ x) xs ->
  split comma (join (js ", ") xs) = spaced xs.
Proof.
  induction 1 as [|x rest Hx Hrest IH]; [reflexivity|].
  destruct rest as [|y rest].
  - simpl. apply split_free, Hx.
  - change (join (js ", ") (x :: y :: rest))
      with (x ++ comma :: 32%N :: join (js ", ") (y :: rest)).
    rewrite (split_app_sep comma x _ Hx).
    destruct (split_cons_other comma 32%N (join (js ", ") (y :: rest)))
      as (h & t & E1 & E2); [discriminate|].
    rewrite E2. rewrite IH in E1. simpl in E1. injection E1 as <- <-.
    reflexivity.
Qed.

Lemma trimStart_suffix (s : jsstring) (c : N) : c ∈ trimStart s -> c ∈ s.
Proof.
  induction s as [|d r IH]; simpl; [tauto|].
  destruct (is_space d); [|tauto].
  intros H. apply elem_of_cons. right. exact (IH H).
Qed.


Lemma trimEnd_cons_visible (c : N) (r : jsstring) :
  is_space c = false -> trimEnd (c :: r) = c :: trimEnd r.
Proof. intros Hc. simpl. rewrite Hc. destruct (trimEnd r); reflexivity. Qed.

Lemma trimEnd_prefix (s : jsstring) (c : N) : c ∈ trimEnd s -> c ∈ s.
Proof.
  induction s as [|d r IH]; simpl; [tauto|].
  destruct (trimEnd r) as [|e r'] eqn:E.
  - destruct (is_space d).
    + intros H. destruct (not_elem_of_nil _ H).
    + intros H. apply list_elem_of_singleton in H. subst. apply elem_of_cons.
      left. reflexivity.
  - intros H. apply elem_of_cons in H. apply elem_of_cons.
    destruct H as [->|H]; [left; reflexivity|]. right. apply IH. exact H.
Qed.

Lemma trim_keeps_free (c : N) (s : jsstring) : c ∉ s -> c ∉ trim s.
Proof.
  intros H Hin. apply H. apply trimStart_suffix, trimEnd_prefix. exact Hin.
Qed.

Lemma trimEnd_idempotent (s : jsstring) : trimEnd (trimEnd s) = trimEnd s.
Proof.
  induction s as [|c r IH]; [reflexivity|]. simpl.
  destruct (trimEnd r) as [|e r'] eqn:E.
  - destruct (is_space c) eqn:Hc; [reflexivity|]. simpl. rewrite Hc. reflexivity.
  - change (trimEnd (c :: e :: r')) with
      (match trimEnd (e :: r') with
       | [] => if is_space c then [] else [c]
       | r'' => c :: r''
       end).
    rewrite IH. reflexivity.
Qed.

Lemma trimStart_visible (s : jsstring) :
  trimStart s = [] \/ exists c r, trimStart s = c :: r /\ is_space c = false.
Proof.
  induction s as [|c r IH]; simpl; [tauto|].
  destruct (is_space c) eqn:Hc; [exact IH|].
  right. exists c, r. tauto.
Qed.

Lemma trim_idempotent (s : jsstring) : trim (trim s) = trim s.
Proof.
  unfold trim. destruct (trimStart_visible s) as [E|(c & r & E & Hc)]; rewrite E.
  - reflexivity.
  - rewrite (trimEnd_cons_visible c r Hc). simpl. rewrite Hc.
    rewrite <- (trimEnd_cons_visible c r Hc). apply trimEnd_idempotent.
Qed.

Lemma trim_after_space (y : jsstring) : trim (32%N :: y) = trim y.
Proof. reflexivity. Qed.

Lemma trim_spaced (xs : list jsstring) :
  xs <> [] -> Forall plain xs -> (trim <$> spaced xs) = xs.
Proof.
  destruct xs as [|x rest]; [congruence|]. intros _ H.
  inversion H as [|? ? [_ Hx] Hrest]; subst. simpl. f_equal; [exact Hx|].
  clear H Hx. induction Hrest as [|y rest [_ Hy] _ IH]; [reflexivity|].
  simpl. rewrite trim_after_space, Hy. f_equal. exact IH.
Qed.

Lemma selected_plain (s : State) : Forall plain (getSelectedBrands s).
Proof.
  unfold getSelectedBrands. cbv zeta.
  destruct (truthy (favoriteDesigners (profile s))); [|constructor].
  apply Forall_fmap.
  eapply Forall_impl; [apply (split_pieces_free comma)|].
  intros piece Hp. split; [apply trim_keeps_free, Hp | apply trim_idempotent].
Qed.

Lemma plain_free (xs : list jsstring) :
  Forall plain xs -> Forall (fun x => comma ∉ x) xs.
Proof.
  intros H. eapply Forall_impl; [exact H|]. intros x [Hx _]. exact Hx.
Qed.

Lemma join_nil_inv (sep : jsstring) (xs : list jsstring) :
  sep <> [] -> join sep xs = [] -> xs = [] \/ xs = [[]].
Proof.
  intros Hsep. destruct xs as [|x [|y rest]]; simpl; intros E.
  - left. reflexivity.
  - right. rewrite E. reflexivity.
  - apply app_eq_nil in E. destruct E as [_ E].
    apply app_eq_nil in E. destruct E as [E _]. contradiction.
Qed.

(** The brands read back from a joined list of plain entries are these
    entries, unless the joined string is empty. *)
Lemma selected_of_joined (xs : list jsstring) (s : State) :
  Forall plain xs -> join (js ", ") xs <> [] ->
  getSelectedBrands (handleProfileChange f_favoriteDesigners (join (js ", ") xs) s)
  = xs.
Proof.
  intros Hxs Hne. unfold getSelectedBrands. cbv zeta.
  change (favoriteDesigners
            (profile (handleProfileChange f_favoriteDesigners (join (js ", ") xs) s)))
    with (join (js ", ") xs).
  destruct (join (js ", ") xs) as [|c r] eqn:E; [congruence|]. cbn [truthy].
  rewrite <- E. rewrite (split_join xs (plain_free xs Hxs)).
  apply trim_spaced; [|exact Hxs].
  intros ->. discriminate E.
Qed.

Lemma includes_true (xs : list jsstring) (x : jsstring) :
  includes xs x = true <-> x ∈ xs.
Proof. unfold includes. apply bool_decide_eq_true. Qed.

Lemma includes_false (xs : list jsstring) (x : jsstring) :
  includes xs x = false <-> x ∉ xs.
Proof. unfold includes. apply bool_decide_eq_false. Qed.

Lemma selectBrand_present (b : jsstring) (s : State) :
  b ∈ getSelectedBrands s -> selectBrand b s = setShowBrandSuggestions false s.
Proof.
  intros H. unfold selectBrand. cbv zeta.
  rewrite (proj2 (includes_true _ _) H). reflexivity.
Qed.

Lemma selectBrand_absent (b : jsstring) (s : State) :
  b ∉ getSelectedBrands s ->
  selectBrand b s =
  setShowBrandSuggestions false
    (handleProfileChange f_favoriteDesigners
       (join (js ", ") (getSelectedBrands s ++ [b])) s).
Proof.
  intros H. unfold selectBrand. cbv zeta.
  rewrite (proj2 (includes_false _ _) H). reflexivity.
Qed.

Lemma selectBrand_twice (b : jsstring) (s : State) :
  plain b -> selectBrand b (selectBrand b s) = selectBrand b s.
Proof.
  intros Hb. destruct (decide (b ∈ getSelectedBrands s)) as [In|Out].
  - rewrite (selectBrand_present b s In).
    rewrite selectBrand_present by exact In. reflexivity.
  - rewrite (selectBrand_absent b s Out).
    set (xs := getSelectedBrands s ++ [b]).
    assert (Hxs : Forall plain xs).
    { apply Forall_app. split; [apply selected_plain|]. repeat constructor; apply Hb. }
    destruct (decide (join (js ", ") xs = [])) as [Z|NZ].
    + (* nothing selected and the empty brand: the stored string stays empty *)
      destruct (join_nil_inv (js ", ") xs ltac:(discriminate) Z) as [E|E];
        subst xs.
      { destruct (getSelectedBrands s); discriminate E. }
      destruct (getSelectedBrands s) as [|x [|y r]] eqn:G; try discriminate E.
      simpl in E. injection E as E. subst b.
      unfold selectBrand at 1. cbv zeta.
      change (getSelectedBrands
                (setShowBrandSuggestions false
                   (handleProfileChange f_favoriteDesigners
                      (join (js ", ") ([] ++ [[]])) s)))
        with (@nil jsstring).
      reflexivity.
    + rewrite selectBrand_present; [reflexivity|].
      change (getSelectedBrands (setShowBrandSuggestions false ?t))
        with (getSelectedBrands t).
      rewrite (selected_of_joined xs s Hxs NZ).
      subst xs. apply elem_of_app. right. apply list_elem_of_singleton. reflexivity.
Qed.

Lemma brands_plain :
  Forall plain WithAppleScreen.LUXURY_BRANDS /\ Forall plain AppTsx.LUXURY_BRANDS.
Proof.
  split; refine (bool_decide_unpack _ _); vm_compute; exact I.
Qed.

(** C9. The selected brands are the pieces of [favoriteDesigners] between
    its commas, trimmed (none for the empty string).  For every state and
    every string [b], [selectBrand b] leaves [favoriteDesigners] alone when
    [b] is among them and stores the comma-joined list with [b] appended
    otherwise; for a brand of the list of either version a second
    [selectBrand] of it changes nothing more, and the brand reads back as
    the last selected one. *)
Theorem selectBrand_appends_once (b : jsstring) (s : State) :
  let fd := favoriteDesigners (profile s) in
  let fd' := favoriteDesigners (profile (selectBrand b s)) in
  getSelectedBrands s = (if decide (fd = []) then [] else trim <$> split comma fd)
  /\ (b ∈ getSelectedBrands s -> fd' = fd)
  /\ (b ∉ getSelectedBrands s ->
      fd' = join (js ", ") (getSelectedBrands s ++ [b]))
  /\ (b ∈ WithAppleScreen.LUXURY_BRANDS \/ b ∈ AppTsx.LUXURY_BRANDS ->
      selectBrand b (selectBrand b s) = selectBrand b s
      /\ (b ∉ getSelectedBrands s ->
          getSelectedBrands (selectBrand b s) = getSelectedBrands s ++ [b])).
Proof.
  cbv zeta. split; [|split; [|split]].
  - unfold getSelectedBrands. cbv zeta.
    destruct (favoriteDesigners (profile s)); reflexivity.
  - intros In. rewrite (selectBrand_present b s In). reflexivity.
  - intros Out. rewrite (selectBrand_absent b s Out). reflexivity.
  - intros Hb.
    assert (Pb : plain b).
    { destruct brands_plain as [P1 P2].
      destruct Hb as [Hb|Hb];
        [exact (proj1 (Forall_forall _ _) P1 b Hb)
        |exact (proj1 (Forall_forall _ _) P2 b Hb)]. }
    assert (Nb : b <> []).
    { intros ->. destruct Hb as [Hb|Hb]; revert Hb;
        refine (bool_decide_unpack _ _); vm_compute; exact I. }
    split; [apply selectBrand_twice, Pb|].
    intros Out. rewrite (selectBrand_absent b s Out).
    change (getSelectedBrands (setShowBrandSuggestions false ?t))
      with (getSelectedBrands t).
    apply selected_of_joined.
    + apply Forall_app. split; [apply selected_plain|]. repeat constructor; apply Pb.
    + intros Z. destruct (join_nil_inv (js ", ") _ ltac:(discriminate) Z) as [E|E].
      * destruct (getSelectedBrands s); discriminate E.
      * destruct (getSelectedBrands s) as [|x [|y r]]; try discriminate E.
        injection E as E. congruence.
Qed.

Lemma selectBrand_appends_once_witness :
  let s := handleProfileChange f_favoriteDesigners (js "Chanel,Prada ") initialState in
  favoriteDesigners (profile (selectBrand (js "Prada") s)) = js "Chanel,Prada "
  /\ favoriteDesigners (profile (selectBrand (js "Gucci") s))
     = js "Chanel, Prada, Gucci"
  /\ selectBrand (js "Gucci") (selectBrand (js "Gucci") s)
     = selectBrand (js "Gucci") s.
Proof.
  cbv zeta.
  pose proof (selectBrand_appends_once (js "Prada")
    (handleProfileChange f_favoriteDesigners (js "Chanel,Prada ") initialState))
    as (_ & Keep & _).
  pose proof (selectBrand_appends_once (js "Gucci")
    (handleProfileChange f_favoriteDesigners (js "Chanel,Prada ") initialState))
    as (_ & _ & Add & Once).
  cbv zeta in Keep, Add, Once.
  split; [|split].
  - apply Keep. refine (bool_decide_unpack _ _). vm_compute. exact I.
  - rewrite Add; [vm_compute; reflexivity|].
    refine (bool_decide_unpack _ _). vm_compute. exact I.
  - apply Once. left. refine (bool_decide_unpack _ _). vm_compute. exact I.
Defined.

(** X12. In every reachable state of the version of App.tsx, what the
    picker offers is taken from the list of brands: [selectBrand] is never
    called with anything else. *)
Lemma suggestions_from_brands (toLowerCase : jsstring -> jsstring) (s : State) :
  reachable (AppTsx.dispatch toLowerCase) s ->
  brandSuggestions s ⊆ AppTsx.LUXURY_BRANDS.
Proof.
  induction 1 as [|a s _ IH]; [intros x Hx; destruct (not_elem_of_nil _ Hx)|].
  unfold AppTsx.dispatch.
  destruct a; simpl; try exact IH;
    unfold tick, onVerifyScreen, countdownTick, continueWithEmail, handlePhoneChange,
      handleVerification, handleVerify, handleDesignerInput, designerFocus,
      selectBrand;
    cbv zeta;
    repeat match goal with
      | |- context [if ?c then _ else _] => destruct c
      | |- context [match ?x with _ => _ end] => destruct x
      end;
    try exact IH;
    cbn [brandSuggestions setShowBrandSuggestions setBrandSuggestions];
    intros x Hx; apply list_elem_of_filter in Hx; tauto.
Qed.

(** ** The code, the countdown and the resend flag along a run *)

(** Handlers that leave the three alone. *)
Lemma frame_handlePhoneChange value s :
  codeAndTimer (handlePhoneChange value s) = codeAndTimer s.
Proof. unfold handlePhoneChange. cbv zeta. split_conditionals; reflexivity. Qed.

Lemma frame_handleVerification s :
  codeAndTimer (fst (handleVerification s)) = codeAndTimer s.
Proof. unfold handleVerification. cbv zeta. split_conditionals; reflexivity. Qed.

Lemma frame_handleVerify s : codeAndTimer (handleVerify s) = codeAndTimer s.
Proof. unfold handleVerify. cbv zeta. split_conditionals; reflexivity. Qed.

Lemma frame_continueWithEmail s :
  codeAndTimer (continueWithEmail s) = codeAndTimer s.
Proof. unfold continueWithEmail. split_conditionals; reflexivity. Qed.

Lemma frame_selectBrand brand s :
  codeAndTimer (selectBrand brand s) = codeAndTimer s.
Proof. unfold selectBrand. cbv zeta. split_conditionals; reflexivity. Qed.

Lemma frame_handleDesignerInput toLowerCase brands value s :
  codeAndTimer (handleDesignerInput toLowerCase brands value s) = codeAndTimer s.
Proof. unfold handleDesignerInput. cbv zeta. split_conditionals; reflexivity. Qed.

Lemma frame_background a s s' :
  background a s = Some s' -> s' = tick s \/ codeAndTimer s' = codeAndTimer s.
Proof.
  destruct a; simpl; try discriminate; intros E; injection E as <-.
  - left. reflexivity.
  - right. split_conditionals; reflexivity.
  - right. split_conditionals; reflexivity.
Qed.

Create Rewrite HintDb frame.
#[local] Hint Rewrite frame_handlePhoneChange frame_handleVerification
  frame_handleVerify frame_continueWithEmail frame_selectBrand
  frame_handleDesignerInput : frame.

Lemma shape_WithAppleScreen : stepShape WithAppleScreen.dispatch.
Proof.
  intros a s. unfold WithAppleScreen.dispatch.
  destruct (background a s) as [s'|] eqn:B.
  { destruct (frame_background a s s' B); tauto. }
  destruct (currentScreen s) eqn:Sc; [| |tauto| |]; right; right;
    destruct a; try reflexivity; split_conditionals;
    autorewrite with frame; reflexivity.
Qed.

Lemma shape_AppTsx toLowerCase : stepShape (AppTsx.dispatch toLowerCase).
Proof.
  intros a s. unfold AppTsx.dispatch.
  destruct (background a s) as [s'|] eqn:B.
  { destruct (frame_background a s s' B); tauto. }
  destruct (currentScreen s) eqn:Sc; [| |tauto| |]; right; right;
    destruct a; try reflexivity; split_conditionals;
    autorewrite with frame; reflexivity.
Qed.

Lemma tick_off_verify s : currentScreen s <> verify -> tick s = s.
Proof.
  intros H. unfold tick, timerRunning.
  rewrite bool_decide_eq_false_2 by exact H. reflexivity.
Qed.

Lemma tick_stopped s : (countdown s <= 0)%Z -> tick s = s.
Proof.
  intros H. unfold tick, timerRunning.
  destruct (Z.ltb_spec 0 (countdown s)); [lia|].
  rewrite andb_false_r. reflexivity.
Qed.

Lemma tick_running s :
  currentScreen s = verify -> (0 < countdown s)%Z ->
  countdown (tick s) = (countdown s - 1)%Z
  /\ canResend (tick s) = (if decide (countdown s = 1%Z) then true else canResend s)
  /\ verificationCode (tick s) = verificationCode s
  /\ currentScreen (tick s) = verify.
Proof.
  intros Sc Pos. unfold tick, timerRunning, countdownTick.
  rewrite bool_decide_eq_true_2 by exact Sc.
  destruct (Z.ltb_spec 0 (countdown s)); [|lia]. simpl.
  destruct (Z.leb_spec (countdown s) 1); simpl;
    destruct (decide (countdown s = 1%Z)); try lia; repeat split; try lia;
    exact Sc.
Qed.

Lemma timerInv_frame s s' :
  codeAndTimer s' = codeAndTimer s -> timerInv s -> timerInv s'.
Proof.
  unfold codeAndTimer, timerInv. intros E. injection E as _ -> ->. tauto.
Qed.

Lemma codeInv_frame s s' :
  codeAndTimer s' = codeAndTimer s -> codeInv s -> codeInv s'.
Proof.
  unfold codeAndTimer, codeInv. intros E. injection E as -> _ _. tauto.
Qed.

Lemma timerInv_tick s : timerInv s -> timerInv (tick s).
Proof.
  intros [R F].
  destruct (decide (currentScreen s = verify)) as [Sc|Sc];
    [|rewrite tick_off_verify by exact Sc; split; assumption].
  destruct (decide (0 < countdown s)%Z) as [Pos|Z0];
    [|rewrite tick_stopped by lia; split; assumption].
  destruct (tick_running s Sc Pos) as (C & Rs & _).
  unfold timerInv. rewrite C, Rs.
  destruct (decide (countdown s = 1%Z)) as [E|NE].
  - split; [lia|]. split; [lia|reflexivity].
  - split; [lia|]. rewrite F. lia.
Qed.

Lemma codeInv_tick s : codeInv s -> codeInv (tick s).
Proof.
  unfold tick, countdownTick. split_conditionals; tauto.
Qed.

Lemma timerInv_onVerifyScreen a s : timerInv s -> timerInv (onVerifyScreen a s).
Proof.
  intros [R F].
  destruct a; simpl; try (split; assumption).
  - destruct (decide (index < length (verificationCode s))); split; assumption.
  - destruct (isVerifying s); [split; assumption|].
    apply (timerInv_frame s); [apply frame_handleVerify|split; assumption].
  - destruct (Z.ltb_spec 0 (countdown s)); [split; assumption|].
    unfold timerInv. simpl. split; [lia|]. split; [discriminate|lia].
Qed.

Lemma codeInv_onVerifyScreen a s : codeInv s -> codeInv (onVerifyScreen a s).
Proof.
  intros [L F].
  destruct a; simpl; try (split; assumption).
  - destruct (decide (index < length (verificationCode s))) as [I|I];
      [|split; assumption].
    unfold handleOTPChange, array_set, codeInv. cbv zeta. simpl.
    destruct (decide (index < length (verificationCode s))); [|contradiction].
    rewrite length_insert. split; [exact L|].
    apply Forall_insert; [exact F|].
    destruct (Nat.ltb_spec 1 (length value)); [rewrite length_take|]; lia.
  - destruct (isVerifying s); [split; assumption|].
    apply (codeInv_frame s); [apply frame_handleVerify|split; assumption].
  - destruct (0 <? countdown s)%Z; split; assumption.
Qed.

Section AlongARun.
Variable dispatch : Action -> State -> State.
Hypothesis shape : stepShape dispatch.

Lemma run_reachable (acts : list Action) (s : State) :
  reachable dispatch s -> reachable dispatch (run dispatch acts s).
Proof.
  revert s. induction acts as [|a acts IH]; intros s R; [exact R|].
  apply (IH (dispatch a s)). constructor. exact R.
Qed.

Lemma reachable_invariants (s : State) :
  reachable dispatch s -> timerInv s /\ codeInv s.
Proof.
  induction 1 as [|a s _ [T C]].
  - split; [split; [simpl; lia|split; discriminate]|].
    split; [reflexivity|]. repeat constructor.
  - destruct (shape a s) as [E|[[_ E]|E]]; rewrite ?E.
    + split; [apply timerInv_tick, T | apply codeInv_tick, C].
    + split; [apply timerInv_onVerifyScreen, T | apply codeInv_onVerifyScreen, C].
    + split; [exact (timerInv_frame s _ E T) | exact (codeInv_frame s _ E C)].
Qed.

(** Until the verify screen has been shown, the three keep the values the
    component starts with. *)
Lemma beforeVerify_initial (s : State) :
  beforeVerify dispatch s -> codeAndTimer s = codeAndTimer initialState.
Proof.
  induction 1 as [|a s _ IH Sc]; [reflexivity|].
  destruct (shape a s) as [E|[[V _]|E]].
  - rewrite E, tick_off_verify by exact Sc. exact IH.
  - contradiction.
  - rewrite E. exact IH.
Qed.

Lemma beforeVerify_reachable (s : State) :
  beforeVerify dispatch s -> reachable dispatch s.
Proof. induction 1; constructor; assumption. Qed.
End AlongARun.

(** In a reachable state the joined code has at most six code units, so a
    code that is not six long is a shorter one. *)
Lemma join_slots (slots : list jsstring) :
  Forall (fun slot => length slot <= 1) slots ->
  length (join [] slots) <= length slots.
Proof.
  induction 1 as [|x rest Hx _ IH]; [reflexivity|].
  destruct rest as [|y rest]; [exact Hx|].
  change (join [] (x :: y :: rest)) with (x ++ join [] (y :: rest)).
  rewrite length_app. simpl in *. lia.
Qed.

Lemma reachable_code_at_most_six (toLowerCase : jsstring -> jsstring) (s : State) :
  reachable WithAppleScreen.dispatch s
  \/ reachable (AppTsx.dispatch toLowerCase) s ->
  length (join [] (verificationCode s)) <= 6.
Proof.
  intros R.
  assert (C : codeInv s).
  { destruct R as [R|R].
    - exact (proj2 (reachable_invariants _ shape_WithAppleScreen s R)).
    - exact (proj2 (reachable_invariants _ (shape_AppTsx toLowerCase) s R)). }
  destruct C as [L F]. rewrite <- L. apply join_slots, F.
Qed.

(** ** Entering the verify screen *)

Lemma truthy_true (x : jsstring) : x <> [] -> truthy x = true.
Proof. destruct x; [congruence|reflexivity]. Qed.

Lemma handleVerification_passes (s : State) :
  mayContinue s -> handleVerification s = (setCurrentScreen verify s, None).
Proof.
  intros (Sa & Fi & Su & Ph & Va). unfold handleVerification. cbv zeta.
  rewrite !truthy_true by assumption. rewrite Va. reflexivity.
Qed.

(** C1, as the claim has it, fails: "continue" does not give the code and the
    countdown their starting values.  After [secondVisit] the form may be
    continued, and the verify screen comes back with the digit typed before
    and with 59 seconds. *)
Lemma continue_does_not_reset :
  ~ (forall s : State,
       reachable WithAppleScreen.dispatch s ->
       currentScreen s = registration_form -> mayContinue s ->
       let s' := fst (handleVerification s) in
       currentScreen s' = verify /\ verificationCode s' = emptyCode
       /\ countdown s' = 60%Z /\ canResend s' = false).
Proof.
  intros H.
  specialize (H (run WithAppleScreen.dispatch secondVisit initialState)).
  destruct H as (_ & _ & C & _).
  - apply run_reachable. constructor.
  - vm_compute. reflexivity.
  - repeat split; vm_compute; congruence.
  - vm_compute in C. discriminate C.
Qed.

(** C1, amended. When "continue" fires with salutation, first name, surname
    and phone non-empty and the phone valid, the screen becomes the verify
    screen, nothing is reported, and the code, the countdown and the resend
    flag are left as they were.  They are six empty slots, 60 and false when
    the verify screen is shown for the first time. *)
Theorem continue_enters_verify (toLowerCase : jsstring -> jsstring) (s : State) :
  mayContinue s ->
  let s' := fst (handleVerification s) in
  currentScreen s' = verify
  /\ snd (handleVerification s) = None
  /\ verificationCode s' = verificationCode s
  /\ countdown s' = countdown s
  /\ canResend s' = canResend s
  /\ (beforeVerify WithAppleScreen.dispatch s
      \/ beforeVerify (AppTsx.dispatch toLowerCase) s ->
      verificationCode s' = emptyCode /\ countdown s' = 60%Z
      /\ canResend s' = false).
Proof.
  intros May. cbv zeta. rewrite (handleVerification_passes s May).
  repeat (split; [reflexivity|]).
  intros B.
  assert (E : codeAndTimer s = codeAndTimer initialState).
  { destruct B as [B|B].
    - exact (beforeVerify_initial _ shape_WithAppleScreen s B).
    - exact (beforeVerify_initial _ (shape_AppTsx toLowerCase) s B). }
  unfold codeAndTimer in E. injection E as E1 E2 E3.
  repeat split; assumption.
Qed.

Lemma beforeVerify_run (dispatch : Action -> State -> State) (acts : list Action)
    (s : State) :
  beforeVerify dispatch s ->
  forallb (fun k => negb (bool_decide
             (currentScreen (run dispatch (take k acts) s) = verify)))
          (seq 0 (length acts)) = true ->
  beforeVerify dispatch (run dispatch acts s).
Proof.
  revert s. induction acts as [|a acts IH]; intros s B H; [exact B|].
  simpl in H. apply andb_true_iff in H. destruct H as [H0 H].
  apply (IH (dispatch a s)).
  - constructor; [exact B|].
    apply negb_true_iff, bool_decide_eq_false in H0. exact H0.
  - rewrite <- H. rewrite <- (fmap_S_seq 0 (length acts)).
    clear. induction (seq 0 (length acts)) as [|k ks IHk]; [reflexivity|].
    simpl. rewrite IHk. reflexivity.
Qed.

Lemma continue_enters_verify_witness :
  let s := run WithAppleScreen.dispatch firstVisit initialState in
  currentScreen (fst (handleVerification s)) = verify
  /\ verificationCode (fst (handleVerification s)) = emptyCode
  /\ countdown (fst (handleVerification s)) = 60%Z.
Proof.
  cbv zeta.
  destruct (continue_enters_verify (fun x => x)
              (run WithAppleScreen.dispatch firstVisit initialState))
    as (Sc & _ & _ & _ & _ & First).
  - repeat split; vm_compute; congruence.
  - destruct First as (C & T & _).
    + left. apply beforeVerify_run; [constructor|]. vm_compute. reflexivity.
    + split; [exact Sc|]. split; [exact C | exact T].
Defined.

(** ** The countdown *)

Example sixty_ticks :
  let s := run WithAppleScreen.dispatch (firstVisit ++ [ClickContinue]) initialState in
  countdown (run WithAppleScreen.dispatch (replicate 59 TimerTick) s) = 1%Z
  /\ canResend (run WithAppleScreen.dispatch (replicate 59 TimerTick) s) = false
  /\ countdown (run WithAppleScreen.dispatch (replicate 60 TimerTick) s) = 0%Z
  /\ canResend (run WithAppleScreen.dispatch (replicate 60 TimerTick) s) = true
  /\ countdown (run WithAppleScreen.dispatch (replicate 61 TimerTick) s) = 0%Z.
Proof. cbv zeta. repeat split; vm_compute; reflexivity. Qed.

(** C7. In every reachable state of either version the countdown is
    between 0 and 60, so never negative, and the resend flag is up exactly
    when it is 0.  A tick on the verify screen with a positive countdown
    takes exactly one off, and raises the resend flag exactly when that
    brings the countdown to 0; at 0, and away from the verify screen, a tick
    changes nothing.  The timer action of both versions is this tick. *)
Theorem countdown_ticks_down_to_zero (toLowerCase : jsstring -> jsstring) (s : State) :
  reachable WithAppleScreen.dispatch s
  \/ reachable (AppTsx.dispatch toLowerCase) s ->
  (0 <= countdown s <= 60)%Z
  /\ (canResend s = true <-> countdown s = 0%Z)
  /\ (currentScreen s = verify -> (0 < countdown s)%Z ->
      countdown (tick s) = (countdown s - 1)%Z
      /\ (canResend (tick s) = true <-> countdown (tick s) = 0%Z)
      /\ (canResend (tick s) = true <-> countdown s = 1%Z))
  /\ (countdown s = 0%Z -> tick s = s)
  /\ (currentScreen s <> verify -> tick s = s)
  /\ WithAppleScreen.dispatch TimerTick s = tick s
  /\ AppTsx.dispatch toLowerCase TimerTick s = tick s.
Proof.
  intros R.
  assert (T : timerInv s).
  { destruct R as [R|R].
    - exact (proj1 (reachable_invariants _ shape_WithAppleScreen s R)).
    - exact (proj1 (reachable_invariants _ (shape_AppTsx toLowerCase) s R)). }
  destruct T as [Rg F].
  split; [exact Rg|]. split; [exact F|]. split; [|split; [|split; [|split]]].
  - intros Sc Pos. destruct (tick_running s Sc Pos) as (C & Rs & _).
    split; [exact C|]. rewrite C, Rs.
    destruct (decide (countdown s = 1%Z)) as [E|NE].
    + split; split; intros _; (reflexivity || lia).
    + rewrite F. split; split; lia.
  - intros Z0. apply tick_stopped. lia.
  - apply tick_off_verify.
  - reflexivity.
  - reflexivity.
Qed.

Lemma countdown_ticks_down_to_zero_witness :
  let s := run WithAppleScreen.dispatch (firstVisit ++ [ClickContinue]) initialState in
  (0 <= countdown s)%Z /\ countdown (tick s) = 59%Z /\ canResend (tick s) = false.
Proof.
  cbv zeta.
  destruct (countdown_ticks_down_to_zero (fun x => x)
              (run WithAppleScreen.dispatch (firstVisit ++ [ClickContinue])
                   initialState))
    as (Rg & _ & Dec & _).
  - left. apply run_reachable. constructor.
  - destruct Dec as (C & _ & _).
    + vm_compute. reflexivity.
    + vm_compute. reflexivity.
    + split; [apply Rg|]. split; [rewrite C; vm_compute; reflexivity|].
      vm_compute. reflexivity.
Defined.

(** * Further properties of the handlers *)

(** ** The shape of a formatted phone number *)

Lemma length_slice a b (l : jsstring) :
  length (slice a b l) = (b - a) `min` (length l - a).
Proof. unfold slice. rewrite length_take, length_drop. reflexivity. Qed.

Lemma digit_or_space_slices (numbers pieces : jsstring) :
  Forall is_digit numbers ->
  pieces = space \/ (exists a b, pieces = slice a b numbers)
  \/ (exists a, pieces = slice_from a numbers) ->
  Forall (fun c => is_digit c \/ c = 32%N) pieces.
Proof.
  intros D [->|[(a & b & ->)|(a & ->)]].
  - constructor; [right; reflexivity | constructor].
  - eapply Forall_impl; [apply Forall_take, Forall_drop, D|]. tauto.
  - eapply Forall_impl; [apply Forall_drop, D|]. tauto.
Qed.

(** X1. A formatted phone number has at most eleven code units, all of them
    digits or spaces; from nine digits on it has exactly eleven, with the
    two spaces after the second and the fifth digit. *)
Theorem formatPhoneNumber_shape (value : jsstring) :
  length (formatPhoneNumber value) <= 11
  /\ Forall (fun c => is_digit c \/ c = 32%N) (formatPhoneNumber value)
  /\ (9 <= length (strip_non_digits value) ->
      length (formatPhoneNumber value) = 11
      /\ formatPhoneNumber value !! 2 = Some 32%N
      /\ formatPhoneNumber value !! 6 = Some 32%N).
Proof.
  rewrite format_layout.
  pose proof (strip_is_digits value) as D.
  set (numbers := strip_non_digits value) in *.
  assert (Sl : forall pieces,
             pieces = space \/ (exists a b, pieces = slice a b numbers)
             \/ (exists a, pieces = slice_from a numbers) ->
             Forall (fun c => is_digit c \/ c = 32%N) pieces)
    by (intros; eapply digit_or_space_slices; eauto).
  unfold layout.
  destruct (Nat.leb_spec (length numbers) 2) as [L2|L2].
  { split; [lia|]. split; [|lia].
    eapply Forall_impl; [exact D|]. tauto. }
  destruct (Nat.leb_spec (length numbers) 5) as [L5|L5].
  { split; [|split; [|lia]].
    - unfold space, slice_from.
      rewrite !length_app, !length_slice, length_drop. cbn [length]. lia.
    - repeat (apply Forall_app; split); apply Sl; eauto. }
  destruct (Nat.leb_spec (length numbers) 8) as [L8|L8].
  { split; [|split; [|lia]].
    - unfold space, slice_from.
      rewrite !length_app, !length_slice, length_drop. cbn [length]. lia.
    - repeat (apply Forall_app; split); apply Sl; eauto. }
  split; [|split].
  - unfold space. rewrite !length_app, !length_slice. cbn [length]. lia.
  - repeat (apply Forall_app; split); apply Sl; eauto.
  - intros _. split.
    + unfold space. rewrite !length_app, !length_slice. cbn [length]. lia.
    + do 9 (destruct numbers as [|? numbers]; [simpl in L8; lia|]).
      split; reflexivity.
Qed.

Lemma formatPhoneNumber_shape_witness :
  length (formatPhoneNumber (js "0522233445566")) = 11
  /\ formatPhoneNumber (js "0522233445566") !! 6 = Some 32%N.
Proof.
  destruct (proj2 (proj2 (formatPhoneNumber_shape (js "0522233445566"))))
    as (L & _ & S6); [vm_compute; lia|].
  split; [exact L | exact S6].
Defined.

Lemma slices_of_take_9 (numbers : jsstring) :
  slice 0 2 (take 9 numbers) = slice 0 2 numbers
  /\ slice 2 5 (take 9 numbers) = slice 2 5 numbers
  /\ slice 5 9 (take 9 numbers) = slice 5 9 numbers.
Proof.
  unfold slice. simpl. rewrite !drop_0, take_take.
  rewrite !(take_drop_commute (take 9 numbers)), !take_take. simpl.
  rewrite !(take_drop_commute numbers). repeat split.
Qed.

(** X2. The display form reads only the first nine digits, so it is the same
    for a phone number and for its formatted form; and for a number of at
    least nine digits it is the formatted number behind the prefix +971. *)
Theorem formatPhoneForDisplay_of_formatted (p : jsstring) :
  formatPhoneForDisplay (formatPhoneNumber p) = formatPhoneForDisplay p
  /\ (9 <= length (strip_non_digits p) ->
      formatPhoneForDisplay p = js "+971 " ++ formatPhoneNumber p).
Proof.
  split.
  - unfold formatPhoneForDisplay. cbv zeta. rewrite strip_format.
    destruct (slices_of_take_9 (strip_non_digits p)) as (-> & -> & ->).
    reflexivity.
  - intros L. unfold formatPhoneForDisplay, formatPhoneNumber. cbv zeta.
    destruct (Nat.leb_spec (length (strip_non_digits p)) 2); [lia|].
    destruct (Nat.leb_spec (length (strip_non_digits p)) 5); [lia|].
    destruct (Nat.leb_spec (length (strip_non_digits p)) 8); [lia|].
    reflexivity.
Qed.

Lemma formatPhoneForDisplay_of_formatted_witness :
  formatPhoneForDisplay (js "052 223-3445 ext 7")
  = js "+971 " ++ formatPhoneNumber (js "052 223-3445 ext 7").
Proof.
  apply (proj2 (formatPhoneForDisplay_of_formatted (js "052 223-3445 ext 7"))).
  vm_compute. lia.
Defined.

(** ** Typing the code *)

Lemma first_unit (value : jsstring) :
  (if 1 <? length value then take 1 value else value) = take 1 value.
Proof.
  destruct (Nat.ltb_spec 1 (length value)); [reflexivity|].
  symmetry. apply take_ge. assumption.
Qed.

(** X3. An edit of slot [index] stores the first code unit of the typed text
    there (nothing for an emptied input), leaves the other slots and the
    number of slots as they are, clears the verification error and touches
    neither the screen nor the timer. *)
Theorem handleOTPChange_slot (index other : nat) (value : jsstring) (s : State) :
  index < length (verificationCode s) ->
  let s' := handleOTPChange index value s in
  verificationCode s' !! index = Some (take 1 value)
  /\ (other <> index -> verificationCode s' !! other = verificationCode s !! other)
  /\ length (verificationCode s') = length (verificationCode s)
  /\ verificationError s' = []
  /\ currentScreen s' = currentScreen s
  /\ countdown s' = countdown s /\ canResend s' = canResend s.
Proof.
  intros I. cbv zeta. unfold handleOTPChange. cbv zeta.
  rewrite first_unit. unfold array_set.
  destruct (decide (index < length (verificationCode s))); [|contradiction].
  cbn [verificationCode verificationError currentScreen countdown canResend
       setVerificationError setVerificationCode].
  split; [apply list_lookup_insert_eq, I|].
  split; [intros Ne; apply list_lookup_insert_ne; congruence|].
  split; [apply length_insert|]. repeat split.
Qed.

Lemma handleOTPChange_slot_witness :
  verificationCode (handleOTPChange 2 (js "78") initialState) !! 2 = Some (js "7")
  /\ verificationCode (handleOTPChange 2 (js "78") initialState) !! 3 = Some [].
Proof.
  destruct (handleOTPChange_slot 2 3 (js "78") initialState) as (A & B & _).
  - vm_compute. lia.
  - split; [exact A|]. rewrite B; [reflexivity|lia].
Defined.

Lemma typeDigits_slots (ds : list N) (filled : list jsstring) (rest : list jsstring)
    (s : State) :
  verificationCode s = filled ++ rest -> length ds <= length rest ->
  verificationCode (typeDigits (length filled) ds s)
  = filled ++ ((fun d => [d]) <$> ds) ++ drop (length ds) rest
  /\ verificationError (typeDigits (length filled) ds s)
     = match ds with [] => verificationError s | _ => [] end
  /\ currentScreen (typeDigits (length filled) ds s) = currentScreen s.
Proof.
  revert filled rest s. induction ds as [|d ds IH]; intros filled rest s E L.
  - simpl. rewrite drop_0. tauto.
  - destruct rest as [|slot rest]; [simpl in L; lia|].
    simpl typeDigits.
    assert (E' : verificationCode (handleOTPChange (length filled) [d] s)
                 = (filled ++ [[d]]) ++ rest).
    { unfold handleOTPChange, array_set. cbv zeta. simpl.
      rewrite E.
      destruct (decide (length filled < length (filled ++ slot :: rest)))
        as [_|N]; [|rewrite length_app in N; simpl in N; lia].
      rewrite insert_app_r_alt by lia. rewrite Nat.sub_diag. simpl.
      rewrite <- app_assoc. reflexivity. }
    specialize (IH (filled ++ [[d]]) rest (handleOTPChange (length filled) [d] s) E').
    rewrite length_app in IH. simpl in IH.
    replace (length filled + 1) with (S (length filled)) in IH by lia.
    destruct IH as (C & Er & Sc); [simpl in L; lia|].
    split; [|split].
    + rewrite C. rewrite <- app_assoc. reflexivity.
    + rewrite Er. destruct ds; reflexivity.
    + rewrite Sc. reflexivity.
Qed.

Lemma join_units (ds : list N) : join [] ((fun d => [d]) <$> ds) = ds.
Proof.
  induction ds as [|d [|e ds] IH]; [reflexivity|reflexivity|].
  change (join [] ((fun d => [d]) <$> d :: e :: ds))
    with ([d] ++ [] ++ join [] ((fun d => [d]) <$> e :: ds)).
  rewrite IH. reflexivity.
Qed.

(** X4. Six code units typed into the six slots in turn are the code, which
    then passes "Verify": no error is set and, the delay elapsed, the screen
    is the success screen.  The six need not be digits. *)
Theorem typing_six_units (ds : list N) (s : State) :
  length (verificationCode s) = 6 -> length ds = 6 ->
  let typed := typeDigits 0 ds s in
  verificationCode typed = (fun d => [d]) <$> ds
  /\ join [] (verificationCode typed) = ds
  /\ verificationError (handleVerify typed) = []
  /\ currentScreen (handleVerify_resume (handleVerify typed)) = success.
Proof.
  intros L6 D6. cbv zeta.
  destruct (typeDigits_slots ds [] (verificationCode s) s eq_refl) as (C & Er & _);
    [lia|].
  simpl in C. rewrite D6, <- L6, drop_all, app_nil_r in C.
  assert (J : join [] (verificationCode (typeDigits 0 ds s)) = ds)
    by (rewrite C; apply join_units).
  split; [exact C|]. split; [exact J|].
  unfold handleVerify. cbv zeta. rewrite J, D6. simpl.
  split; [|reflexivity].
  simpl in Er. rewrite Er. destruct ds; [discriminate D6|reflexivity].
Qed.

Lemma typing_six_units_witness :
  join [] (verificationCode (typeDigits 0 (js "12ab56") initialState)) = js "12ab56"
  /\ currentScreen
       (handleVerify_resume (handleVerify (typeDigits 0 (js "12ab56") initialState)))
     = success.
Proof.
  destruct (typing_six_units (js "12ab56") initialState) as (_ & J & _ & Sc).
  - reflexivity.
  - reflexivity.
  - split; [exact J | exact Sc].
Defined.

(** X5. In every reachable state of either version the code has its six
    slots, each empty or one code unit, so the joined code is never longer
    than six: a code that "Verify" rejects is a code with an empty slot. *)
Theorem reachable_code_six_slots (toLowerCase : jsstring -> jsstring) (s : State) :
  reachable WithAppleScreen.dispatch s
  \/ reachable (AppTsx.dispatch toLowerCase) s ->
  length (verificationCode s) = 6
  /\ Forall (fun slot => length slot <= 1) (verificationCode s)
  /\ length (join [] (verificationCode s)) <= 6
  /\ (length (join [] (verificationCode s)) <> 6 -> [] ∈ verificationCode s).
Proof.
  intros R.
  assert (C : codeInv s).
  { destruct R as [R|R].
    - exact (proj2 (reachable_invariants _ shape_WithAppleScreen s R)).
    - exact (proj2 (reachable_invariants _ (shape_AppTsx toLowerCase) s R)). }
  destruct C as [L F]. split; [exact L|]. split; [exact F|].
  split; [rewrite <- L; apply join_slots, F|].
  rewrite <- L. clear L. induction F as [|x rest Hx F IH];
    [intros Ne; destruct Ne; reflexivity|].
  destruct x as [|c x]; [intros _; apply elem_of_cons; left; reflexivity|].
  destruct x; [|simpl in Hx; lia].
  intros Ne. apply elem_of_cons. right.
  destruct rest as [|y rest]; [destruct Ne; reflexivity|].
  apply IH. intros E. apply Ne.
  change (join [] ([c] :: y :: rest)) with (c :: join [] (y :: rest)).
  cbn [length] in *. lia.
Qed.

Lemma reachable_code_six_slots_witness :
  length (verificationCode
            (run WithAppleScreen.dispatch secondVisit initialState)) = 6.
Proof.
  apply (reachable_code_six_slots (fun x => x)
           (run WithAppleScreen.dispatch secondVisit initialState)).
  left. apply run_reachable. constructor.
Defined.

(** ** Counting down and resending *)

Lemma ticks_countdown (n : nat) (s : State) :
  currentScreen s = verify -> (0 <= countdown s)%Z ->
  countdown (ticks n s) = (0 `max` (countdown s - Z.of_nat n))%Z
  /\ (canResend (ticks n s) = true <->
      canResend s = true \/ (0 < countdown s <= Z.of_nat n)%Z)
  /\ currentScreen (ticks n s) = verify
  /\ verificationCode (ticks n s) = verificationCode s.
Proof.
  revert s. induction n as [|n IH]; intros s Sc Pos.
  - simpl. repeat split; try lia; intuition lia.
  - cbn [ticks]. destruct (decide (countdown s = 0%Z)) as [Z0|NZ].
    + rewrite tick_stopped by lia.
      destruct (IH s Sc Pos) as (C & R & Sc' & V).
      split; [lia|]. split; [rewrite R; intuition lia|]. tauto.
    + destruct (tick_running s Sc ltac:(lia)) as (C1 & R1 & V1 & Sc1).
      destruct (IH (tick s) Sc1 ltac:(lia)) as (C & R & Sc' & V).
      split; [lia|]. split; [|split; [exact Sc'|congruence]].
      rewrite R, R1, C1.
      destruct (decide (countdown s = 1%Z)); intuition lia.
Qed.

Lemma run_ticks (dispatch : Action -> State -> State) (n : nat) (s : State) :
  (forall s, dispatch TimerTick s = tick s) ->
  run dispatch (replicate n TimerTick) s = ticks n s.
Proof.
  intros T. revert s. induction n as [|n IH]; intros s; [reflexivity|].
  simpl. rewrite T. apply IH.
Qed.

(** X6. On the verify screen, [n] ticks of the timer take the countdown from
    [c] to [c - n], or to 0 when [n] is larger; the resend flag is up after
    them exactly when it was up before or the countdown has reached 0 on the
    way; the screen and the typed code are not touched.  So 60 ticks, and no
    fewer, after the start enable the resend. *)
Theorem ticks_count_down (toLowerCase : jsstring -> jsstring) (n : nat) (s : State) :
  currentScreen s = verify -> (0 <= countdown s)%Z ->
  let s1 := run WithAppleScreen.dispatch (replicate n TimerTick) s in
  let s2 := run (AppTsx.dispatch toLowerCase) (replicate n TimerTick) s in
  s1 = s2
  /\ countdown s1 = (0 `max` (countdown s - Z.of_nat n))%Z
  /\ (canResend s1 = true <->
      canResend s = true \/ (0 < countdown s <= Z.of_nat n)%Z)
  /\ currentScreen s1 = verify
  /\ verificationCode s1 = verificationCode s.
Proof.
  intros Sc Pos. cbv zeta.
  rewrite !run_ticks by reflexivity.
  split; [reflexivity|]. apply ticks_countdown; assumption.
Qed.

Lemma ticks_count_down_witness :
  let s := run WithAppleScreen.dispatch (firstVisit ++ [ClickContinue]) initialState in
  countdown (run WithAppleScreen.dispatch (replicate 25 TimerTick) s) = 35%Z
  /\ (canResend (run WithAppleScreen.dispatch (replicate 60 TimerTick) s) = true).
Proof.
  cbv zeta. split.
  - destruct (ticks_count_down (fun x => x) 25
                (run WithAppleScreen.dispatch (firstVisit ++ [ClickContinue])
                     initialState)) as (_ & C & _).
    + vm_compute. reflexivity.
    + vm_compute. discriminate.
    + rewrite C. vm_compute. reflexivity.
  - destruct (ticks_count_down (fun x => x) 60
                (run WithAppleScreen.dispatch (firstVisit ++ [ClickContinue])
                     initialState)) as (_ & _ & R & _).
    + vm_compute. reflexivity.
    + vm_compute. discriminate.
    + apply R. right. vm_compute. split; [reflexivity|discriminate].
Defined.

(** X7. "Resend Code" is offered only when the countdown is not positive,
    which in a reachable state means the resend flag is up; it lowers the
    flag and restarts the countdown at 60, and the flag is up again after
    [n] further ticks exactly when [n] is at least 60. *)
Theorem resend_restarts_countdown (toLowerCase : jsstring -> jsstring) (n : nat)
    (s : State) :
  reachable WithAppleScreen.dispatch s
  \/ reachable (AppTsx.dispatch toLowerCase) s ->
  currentScreen s = verify ->
  ((0 < countdown s)%Z -> onVerifyScreen ClickResend s = s)
  /\ (countdown s = 0%Z ->
      let s' := onVerifyScreen ClickResend s in
      canResend s = true
      /\ countdown s' = 60%Z /\ canResend s' = false
      /\ verificationCode s' = verificationCode s
      /\ currentScreen s' = verify
      /\ countdown (ticks n s') = (0 `max` (60 - Z.of_nat n))%Z
      /\ (canResend (ticks n s') = true <-> 60 <= n)).
Proof.
  intros R Sc.
  assert (T : timerInv s).
  { destruct R as [R|R].
    - exact (proj1 (reachable_invariants _ shape_WithAppleScreen s R)).
    - exact (proj1 (reachable_invariants _ (shape_AppTsx toLowerCase) s R)). }
  destruct T as [_ F]. split.
  - intros Pos. simpl. destruct (Z.ltb_spec 0 (countdown s)); [reflexivity|lia].
  - intros Z0. cbv zeta. simpl onVerifyScreen. rewrite Z0. simpl Z.ltb. cbv iota.
    split; [apply F, Z0|].
    destruct (ticks_countdown n (handleResendCode s)) as (C & Rs & _);
      [exact Sc|simpl; lia|].
    repeat (split; [first [reflexivity|exact Sc]|]).
    split; [exact C|]. rewrite Rs. simpl. split.
    + intros [H|H]; [discriminate H|lia].
    + intros H. right. lia.
Qed.

Lemma resend_restarts_countdown_witness :
  let s := run WithAppleScreen.dispatch
             (firstVisit ++ [ClickContinue] ++ replicate 60 TimerTick)
             initialState in
  countdown (onVerifyScreen ClickResend s) = 60%Z
  /\ canResend (onVerifyScreen ClickResend s) = false.
Proof.
  cbv zeta.
  destruct (resend_restarts_countdown (fun x => x) 0
              (run WithAppleScreen.dispatch
                 (firstVisit ++ [ClickContinue] ++ replicate 60 TimerTick)
                 initialState)) as (_ & Re).
  - left. apply run_reachable. constructor.
  - vm_compute. reflexivity.
  - destruct Re as (_ & C & Rf & _); [vm_compute; reflexivity|].
    split; [exact C | exact Rf].
Defined.

(** ** Removing brands and typing into the designer input *)

Lemma filter_plain (P : jsstring -> Prop) `{forall x, Decision (P x)}
    (xs : list jsstring) :
  Forall plain xs -> Forall plain (filter P xs).
Proof.
  intros F. apply Forall_forall. intros x Hx.
  apply list_elem_of_filter in Hx. destruct Hx as [_ Hx].
  exact (proj1 (Forall_forall _ _) F x Hx).
Qed.

Lemma selected_after_join (xs : list jsstring) (s : State) :
  Forall plain xs -> xs <> [[]] ->
  getSelectedBrands (handleProfileChange f_favoriteDesigners (join (js ", ") xs) s)
  = xs.
Proof.
  intros F Ne.
  destruct (decide (join (js ", ") xs = [])) as [Z|NZ].
  - destruct (join_nil_inv (js ", ") xs ltac:(discriminate) Z) as [-> | ->];
      [reflexivity|contradiction].
  - apply selected_of_joined; assumption.
Qed.

(** X8. After [removeBrand b] the brand [b] is not among the selected
    brands, whatever was stored; the brands read back are the ones selected
    before without [b], in their order, unless only the empty entry is left,
    which reads back as no brand at all.  Nothing but the profile changes. *)
Theorem removeBrand_removes (b : jsstring) (s : State) :
  let kept := filter (fun brand => brand <> b) (getSelectedBrands s) in
  (b ∉ getSelectedBrands (removeBrand b s))
  /\ (kept <> [[]] -> getSelectedBrands (removeBrand b s) = kept)
  /\ (kept = [[]] -> getSelectedBrands (removeBrand b s) = [])
  /\ setProfile (fun _ => profile s) (removeBrand b s) = s.
Proof.
  cbv zeta. unfold removeBrand. cbv zeta.
  set (kept := filter (fun brand => brand <> b) (getSelectedBrands s)).
  assert (F : Forall plain kept) by (apply filter_plain, selected_plain).
  assert (Out : b ∉ kept).
  { intros In. apply list_elem_of_filter in In. destruct In as [Ne _].
    apply Ne. reflexivity. }
  split; [|split; [|split]].
  - destruct (decide (kept = [[]])) as [->|Ne]; [apply not_elem_of_nil|].
    rewrite (selected_after_join kept s F Ne). exact Out.
  - apply selected_after_join, F.
  - intros ->. reflexivity.
  - destruct s. reflexivity.
Qed.

Lemma removeBrand_removes_witness :
  let s := handleProfileChange f_favoriteDesigners (js "Chanel , Prada,Dior")
             initialState in
  getSelectedBrands (removeBrand (js "Prada") s) = [js "Chanel"; js "Dior"].
Proof.
  cbv zeta.
  rewrite (proj1 (proj2 (removeBrand_removes (js "Prada")
    (handleProfileChange f_favoriteDesigners (js "Chanel , Prada,Dior")
       initialState)))).
  - vm_compute. reflexivity.
  - vm_compute. discriminate.
Defined.

Lemma selected_after_select (b : jsstring) (s : State) :
  plain b -> b ∉ getSelectedBrands s ->
  getSelectedBrands s ++ [b] <> [[]] ->
  getSelectedBrands (selectBrand b s) = getSelectedBrands s ++ [b].
Proof.
  intros Pb Out Ne. rewrite (selectBrand_absent b s Out).
  change (getSelectedBrands (setShowBrandSuggestions false ?t))
    with (getSelectedBrands t).
  apply selected_after_join; [|exact Ne].
  apply Forall_app. split; [apply selected_plain|]. repeat constructor; apply Pb.
Qed.

(** X9. Selecting a brand of the list that is not selected and removing it
    again gives back the selected brands there were, unless the brands
    before were just the empty entry (a stored string of white space), which
    the round trip turns into no brand at all. *)
Theorem select_then_remove (b : jsstring) (s : State) :
  b ∈ WithAppleScreen.LUXURY_BRANDS \/ b ∈ AppTsx.LUXURY_BRANDS ->
  b ∉ getSelectedBrands s ->
  (getSelectedBrands s <> [[]] ->
   getSelectedBrands (removeBrand b (selectBrand b s)) = getSelectedBrands s)
  /\ (getSelectedBrands s = [[]] ->
      getSelectedBrands (removeBrand b (selectBrand b s)) = []).
Proof.
  intros Hb Out.
  assert (Pb : plain b).
  { destruct brands_plain as [P1 P2].
    destruct Hb as [Hb|Hb];
      [exact (proj1 (Forall_forall _ _) P1 b Hb)
      |exact (proj1 (Forall_forall _ _) P2 b Hb)]. }
  assert (Nb : b <> []).
  { intros ->. destruct Hb as [Hb|Hb]; revert Hb;
      refine (bool_decide_unpack _ _); vm_compute; exact I. }
  assert (Sel : getSelectedBrands (selectBrand b s) = getSelectedBrands s ++ [b]).
  { apply selected_after_select; [exact Pb|exact Out|].
    destruct (getSelectedBrands s) as [|x [|y r]]; simpl; congruence. }
  assert (K : filter (fun brand => brand <> b) (getSelectedBrands (selectBrand b s))
              = getSelectedBrands s).
  { rewrite Sel, filter_app, filter_cons_False, filter_nil, app_nil_r
      by (intros Ne; apply Ne; reflexivity).
    clear Sel. induction (getSelectedBrands s) as [|x xs IH]; [reflexivity|].
    apply not_elem_of_cons in Out. destruct Out as [Ne Out].
    rewrite filter_cons_True by congruence. f_equal. apply IH, Out. }
  unfold removeBrand. cbv zeta. rewrite K. split.
  - intros Ne. apply selected_after_join; [apply selected_plain|exact Ne].
  - intros ->. reflexivity.
Qed.

Lemma select_then_remove_witness :
  let s := handleProfileChange f_favoriteDesigners (js "Chanel, Prada")
             initialState in
  getSelectedBrands (removeBrand (js "Gucci") (selectBrand (js "Gucci") s))
  = getSelectedBrands s.
Proof.
  cbv zeta.
  apply (proj1 (select_then_remove (js "Gucci")
    (handleProfileChange f_favoriteDesigners (js "Chanel, Prada") initialState)
    ltac:(left; refine (bool_decide_unpack _ _); vm_compute; exact I)
    ltac:(refine (bool_decide_unpack _ _); vm_compute; exact I))).
  vm_compute. discriminate.
Defined.

(** X10. Typing into the designer input stores the typed text as the list of
    favourite designers, so the brands selected before are replaced by what
    the text splits into.  The suggestions are brands of the list, none of
    them among the brands selected before the edit (the stored text is not
    yet looked at); the menu is shown exactly when there is one, and an
    emptied input closes the menu and keeps the old suggestions. *)
Theorem handleDesignerInput_suggestions (toLowerCase : jsstring -> jsstring)
    (brands : list jsstring) (value : jsstring) (s : State) :
  let s' := handleDesignerInput toLowerCase brands value s in
  favoriteDesigners (profile s') = value
  /\ getSelectedBrands s'
     = (if decide (value = []) then [] else trim <$> split comma value)
  /\ (forall brand, brand ∈ brandSuggestions s' ->
        brand ∈ brandSuggestions s
        \/ (brand ∈ brands /\ (brand ∉ getSelectedBrands s)
            /\ str_includes (toLowerCase brand) (toLowerCase value) = true))
  /\ (value <> [] ->
      (showBrandSuggestions s' = true <-> brandSuggestions s' <> []))
  /\ (value = [] ->
      showBrandSuggestions s' = false /\ brandSuggestions s' = brandSuggestions s).
Proof.
  cbv zeta. unfold handleDesignerInput. cbv zeta.
  destruct value as [|c value].
  - simpl. repeat split; try tauto; try congruence.
  - cbn [length Nat.ltb Nat.leb].
    cbn [brandSuggestions showBrandSuggestions setShowBrandSuggestions
         setBrandSuggestions profile favoriteDesigners handleProfileChange
         setProfile withField].
    split; [reflexivity|]. split; [reflexivity|]. split; [|split].
    + intros brand In. right. apply list_elem_of_filter in In.
      destruct In as [P In]. apply andb_prop_elim in P. destruct P as [P1 P2].
      split; [exact In|]. split.
      * apply negb_prop_elim in P2. intros In'. apply P2.
        unfold includes. apply bool_decide_pack. exact In'.
      * apply Is_true_true. exact P1.
    + intros _.
      destruct (filter _ brands) as [|x xs]; simpl; split; congruence.
    + discriminate.
Qed.

Lemma handleDesignerInput_suggestions_witness :
  let s' := handleDesignerInput (fun x => x) AppTsx.LUXURY_BRANDS (js "a")
              initialState in
  showBrandSuggestions s' = true.
Proof.
  cbv zeta.
  apply (proj1 (proj2 (proj2 (proj2 (handleDesignerInput_suggestions (fun x => x)
           AppTsx.LUXURY_BRANDS (js "a") initialState)))));
    vm_compute; discriminate.
Defined.

Lemma suggestions_from_brands_witness :
  brandSuggestions
    (run (AppTsx.dispatch (fun x => x))
       [ChangeEmail (js "a@b.com"); ClickContinueWithEmail; FocusDesigner]
       initialState)
  ⊆ AppTsx.LUXURY_BRANDS.
Proof.
  apply (suggestions_from_brands (fun x => x)).
  apply run_reachable. constructor.
Defined.

(** ** Profile fields and the guard of "Continue" *)

(** X13. [handleProfileChange] writes the one field it is given: reading it
    back gives the value, every other field reads as before, a second write
    to the field wins over the first, writes to two different fields can be
    swapped, and nothing outside the profile is touched. *)
Theorem handleProfileChange_fields (f g : Field) (v w : jsstring) (s : State) :
  readField f (profile (handleProfileChange f v s)) = v
  /\ (g <> f ->
      readField g (profile (handleProfileChange f v s)) = readField g (profile s))
  /\ handleProfileChange f w (handleProfileChange f v s) = handleProfileChange f w s
  /\ (g <> f ->
      handleProfileChange g w (handleProfileChange f v s)
      = handleProfileChange f v (handleProfileChange g w s))
  /\ setProfile (fun _ => profile s) (handleProfileChange f v s) = s.
Proof.
  destruct s as [? p ? ? ? ? ? ? ? ? ? ? ? ?]. destruct p.
  repeat split; try (destruct f; reflexivity);
    intros Ne; destruct f, g; try reflexivity; congruence.
Qed.

Lemma handleProfileChange_fields_witness :
  readField f_surname
    (profile (handleProfileChange f_firstName (js "A")
                (handleProfileChange f_surname (js "B") initialState)))
  = js "B".
Proof.
  rewrite (proj1 (proj2 (handleProfileChange_fields f_firstName f_surname
            (js "A") [] (handleProfileChange f_surname (js "B") initialState))));
    [reflexivity|discriminate].
Defined.

(** X14. "Continue" on the registration form goes on exactly when
    salutation, first name, surname and phone are non-empty and the phone is
    valid.  Otherwise the state is left as it is and one alert is raised:
    the one for the required fields if one of the four is empty, even when
    the phone is also invalid, and the one for the phone if only the phone
    is at fault. *)
Theorem handleVerification_alerts (s : State) :
  let p := profile s in
  (mayContinue s <-> snd (handleVerification s) = None)
  /\ (mayContinue s -> fst (handleVerification s) = setCurrentScreen verify s)
  /\ (~ mayContinue s -> fst (handleVerification s) = s)
  /\ (salutation p = [] \/ firstName p = [] \/ surname p = [] \/ phone p = [] ->
      snd (handleVerification s) = Some requiredFieldsAlert)
  /\ (salutation p <> [] -> firstName p <> [] -> surname p <> [] ->
      phone p <> [] -> validateUAEPhone (phone p) = false ->
      snd (handleVerification s) = Some invalidPhoneAlert).
Proof.
  cbv zeta. unfold mayContinue, handleVerification. cbv zeta.
  destruct (salutation (profile s)) as [|c1 r1];
  destruct (firstName (profile s)) as [|c2 r2];
  destruct (surname (profile s)) as [|c3 r3];
  destruct (phone (profile s)) as [|c4 r4];
  cbn [truthy negb orb fst snd];
  try (intuition (try congruence; try discriminate); fail).
  destruct (validateUAEPhone (c4 :: r4)); cbn [negb fst snd];
    intuition (try congruence; try discriminate).
Qed.

Lemma handleVerification_alerts_witness :
  snd (handleVerification
         (handlePhoneChange (js "05")
            (handleProfileChange f_salutation (js "Mr") initialState)))
  = Some requiredFieldsAlert.
Proof.
  apply (proj1 (proj2 (proj2 (proj2 (handleVerification_alerts
    (handlePhoneChange (js "05")
       (handleProfileChange f_salutation (js "Mr") initialState))))))).
  right. left. vm_compute. reflexivity.
Defined.

(** ** What holds in every reachable state *)

Lemma format_idempotent (value : jsstring) :
  formatPhoneNumber (formatPhoneNumber value) = formatPhoneNumber value.
Proof.
  rewrite (format_layout (formatPhoneNumber value)), strip_format, layout_take_9.
  reflexivity.
Qed.

Lemma phoneInv_handlePhoneChange (value : jsstring) (s : State) :
  phoneInv (handlePhoneChange value s).
Proof.
  unfold phoneInv, handlePhoneChange. cbv zeta.
  pose proof (format_idempotent value) as Id.
  destruct (formatPhoneNumber value) as [|c r] eqn:F; cbn [truthy negb].
  - cbn. intuition congruence.
  - destruct (validateUAEPhone (c :: r)) eqn:Va; cbn [negb];
      cbn -[formatPhoneNumber validateUAEPhone phoneFormatError];
      intuition congruence.
Qed.

Lemma handlePhoneChange_setters (value : jsstring) (s : State) :
  exists e,
    handlePhoneChange value s
    = setPhoneError e (setProfile (withField f_phone (formatPhoneNumber value)) s).
Proof. unfold handlePhoneChange. cbv zeta. split_conditionals; eauto. Qed.

Lemma handleVerification_cases (s : State) :
  fst (handleVerification s) = s
  \/ (mayContinue s /\ fst (handleVerification s) = setCurrentScreen verify s).
Proof.
  destruct (salutation (profile s)) as [|c1 r1] eqn:Sa;
    [left; unfold handleVerification; cbv zeta; rewrite Sa; reflexivity|].
  destruct (firstName (profile s)) as [|c2 r2] eqn:Fi;
    [left; unfold handleVerification; cbv zeta; rewrite Sa, Fi; reflexivity|].
  destruct (surname (profile s)) as [|c3 r3] eqn:Su;
    [left; unfold handleVerification; cbv zeta; rewrite Sa, Fi, Su; reflexivity|].
  destruct (phone (profile s)) as [|c4 r4] eqn:Ph;
    [left; unfold handleVerification; cbv zeta; rewrite Sa, Fi, Su, Ph; reflexivity|].
  destruct (validateUAEPhone (phone (profile s))) eqn:Va.
  - right. assert (May : mayContinue s).
    { unfold mayContinue. rewrite Sa, Fi, Su, Ph. rewrite Ph in Va.
      repeat split; (discriminate || exact Va). }
    split; [exact May|]. rewrite (handleVerification_passes s May). reflexivity.
  - left. unfold handleVerification. cbv zeta. rewrite Sa, Fi, Su, Ph.
    rewrite Ph in Va. rewrite Va. reflexivity.
Qed.

Lemma phone_empty : formatPhoneNumber [] = [] /\ validateUAEPhone [] = false.
Proof. split; reflexivity. Qed.

(** One step of a version keeps [flowInv]: the cases of the action and of
    the screen, with [handlePhoneChange] and [handleVerification] taken by
    the lemmas above and the other handlers unfolded. *)
Ltac flow_step unfold_auth :=
  try match goal with
    | value : jsstring |- context [handlePhoneChange ?v ?s] =>
        let He := fresh "He" in
        pose proof (phoneInv_handlePhoneChange v s);
        destruct (handlePhoneChange_setters v s) as [? He];
        rewrite He in *; clear He
    end;
  try match goal with
    | |- context [fst (handleVerification ?s)] =>
        destruct (handleVerification_cases s) as [->|[? ->]]
    end;
  unfold flowInv, phoneInv, screenInv, flagsInv, mayContinue in *;
  unfold tick, timerRunning, countdownTick, onVerifyScreen, handleVerify,
    handleVerify_resume, handleResendCode, handleEmailVerification,
    handleEmailVerification_resume, continueWithEmail, useDifferentMethod,
    handleDesignerInput, designerFocus, selectBrand, removeBrand,
    handleProfileChange, handleOTPChange, retryShown;
  unfold_auth; cbv zeta;
  cases_eqn;
  cbn -[formatPhoneNumber validateUAEPhone phoneFormatError] in *;
  repeat match goal with
    | H : truthy ?x = true |- _ => destruct x; [discriminate H|clear H]
    | H : (0 <? _) = true |- _ => apply Nat.ltb_lt in H
    | H : (0 <? _) = false |- _ => apply Nat.ltb_ge in H
    end;
  try (destruct phone_empty as [-> ->]);
  intuition (try congruence; try discriminate; try lia).

Lemma flowInv_WithAppleScreen (a : Action) (s : State) :
  flowInv s -> flowInv (WithAppleScreen.dispatch a s).
Proof.
  intros I. unfold WithAppleScreen.dispatch.
  destruct a; cbn [background];
    try (destruct (currentScreen s) eqn:Sc; try exact I; rewrite ?Sc in * );
    flow_step ltac:(unfold WithAppleScreen.handleSocialAuth).
Qed.

Lemma flowInv_AppTsx toLowerCase (a : Action) (s : State) :
  flowInv s -> flowInv (AppTsx.dispatch toLowerCase a s).
Proof.
  intros I. unfold AppTsx.dispatch.
  destruct a; cbn [background];
    try (destruct (currentScreen s) eqn:Sc; try exact I; rewrite ?Sc in * );
    flow_step ltac:(unfold AppTsx.handleSocialAuth).
Qed.

Lemma flowInv_initial : flowInv initialState.
Proof.
  unfold flowInv, phoneInv, screenInv, flagsInv, mayContinue. simpl.
  intuition (try congruence; try discriminate; try lia).
Qed.

Lemma reachable_flowInv (toLowerCase : jsstring -> jsstring) (s : State) :
  reachable WithAppleScreen.dispatch s
  \/ reachable (AppTsx.dispatch toLowerCase) s ->
  flowInv s.
Proof.
  intros [R|R]; induction R as [|a s _ IH]; try apply flowInv_initial.
  - apply flowInv_WithAppleScreen, IH.
  - apply flowInv_AppTsx, IH.
Qed.

Lemma no_apple_screen_AppTsx (toLowerCase : jsstring -> jsstring) (s : State) :
  reachable (AppTsx.dispatch toLowerCase) s -> currentScreen s <> apple_signin.
Proof.
  induction 1 as [|a s _ IH]; [discriminate|].
  unfold AppTsx.dispatch.
  destruct a; cbn [background]; try exact IH;
    destruct (currentScreen s) eqn:Sc; try contradiction;
    unfold tick, countdownTick, onVerifyScreen, handleVerify, handleVerify_resume,
      handleResendCode, handleEmailVerification, handleEmailVerification_resume,
      continueWithEmail, useDifferentMethod, handleDesignerInput, designerFocus,
      selectBrand, removeBrand, handleProfileChange, handleOTPChange,
      handlePhoneChange, handleVerification, AppTsx.handleSocialAuth;
    cbv zeta; split_conditionals; cbn [currentScreen fst]; simpl;
    rewrite ?Sc; discriminate.
Qed.

(** X15. In every reachable state of either version the stored phone is a
    formatted one (formatting it again changes nothing, so it has at most
    eleven code units), and the phone check of "Continue" passes exactly
    when a phone is stored and no inline phone error is shown. *)
Theorem reachable_phone_formatted (toLowerCase : jsstring -> jsstring) (s : State) :
  reachable WithAppleScreen.dispatch s
  \/ reachable (AppTsx.dispatch toLowerCase) s ->
  formatPhoneNumber (phone (profile s)) = phone (profile s)
  /\ length (phone (profile s)) <= 11
  /\ (validateUAEPhone (phone (profile s)) = true <->
      phone (profile s) <> [] /\ phoneError s = []).
Proof.
  intros R. destruct (reachable_flowInv toLowerCase s R) as ((F & V & E) & _).
  split; [exact F|]. split.
  - rewrite <- F, format_layout.
    set (numbers := strip_non_digits (phone (profile s))).
    unfold layout, space, slice_from.
    repeat match goal with
    | |- context [?a <=? ?b] => destruct (Nat.leb_spec a b)
    end;
      rewrite ?length_app, ?length_slice, ?length_drop; cbn [length]; lia.
  - split.
    + intros Va. split; [|exact (V Va)].
      intros Z. rewrite Z in Va. discriminate Va.
    + intros [Ne Er].
      destruct (validateUAEPhone (phone (profile s))) eqn:Va; [reflexivity|].
      rewrite (E Ne eq_refl) in Er. discriminate Er.
Qed.

Lemma reachable_phone_formatted_witness :
  validateUAEPhone
    (phone (profile (run WithAppleScreen.dispatch firstVisit initialState))) = true.
Proof.
  apply (reachable_phone_formatted (fun x => x)
           (run WithAppleScreen.dispatch firstVisit initialState)).
  - left. apply run_reachable. constructor.
  - split; vm_compute; [discriminate|reflexivity].
Defined.

(** X16. In every reachable state of either version: on the verify screen
    salutation, first name, surname and phone are non-empty, the phone is
    valid and no phone error is shown; on the registration form and on the
    verify screen the email is non-empty.  The version of App.tsx never
    shows the Apple sign-in screen. *)
Theorem reachable_screens (toLowerCase : jsstring -> jsstring) (s : State) :
  reachable WithAppleScreen.dispatch s
  \/ reachable (AppTsx.dispatch toLowerCase) s ->
  (currentScreen s = verify -> mayContinue s /\ phoneError s = [])
  /\ (currentScreen s = registration_form \/ currentScreen s = verify ->
      email (profile s) <> [])
  /\ (reachable (AppTsx.dispatch toLowerCase) s -> currentScreen s <> apple_signin).
Proof.
  intros R.
  destruct (reachable_flowInv toLowerCase s R) as ((_ & V & _) & (M & E) & _).
  split; [|split; [exact E | apply no_apple_screen_AppTsx]].
  intros Sc. split; [exact (M Sc)|]. apply V. apply (M Sc).
Qed.

Lemma reachable_screens_witness :
  email (profile (run WithAppleScreen.dispatch
                    (firstVisit ++ [ClickContinue]) initialState)) <> [].
Proof.
  apply (reachable_screens (fun x => x)
           (run WithAppleScreen.dispatch (firstVisit ++ [ClickContinue])
                initialState)).
  - left. apply run_reachable. constructor.
  - right. vm_compute. reflexivity.
Defined.






(** X18. In every reachable state of either version at most one submitted
    code is waiting on its delay, and the "Verify" button is disabled
    exactly while one is.  When the delay has elapsed the screen becomes the
    success screen whatever screen is shown by then, with the profile as it
    is at that moment. *)
Theorem one_verification_in_flight (toLowerCase : jsstring -> jsstring) (s : State) :
  reachable WithAppleScreen.dispatch s
  \/ reachable (AppTsx.dispatch toLowerCase) s ->
  verifyDelays s <= 1
  /\ (isVerifying s = true <-> verifyDelays s = 1)
  /\ (isVerifying s = true ->
      let s1 := WithAppleScreen.dispatch VerifyDelayElapsed s in
      let s2 := AppTsx.dispatch toLowerCase VerifyDelayElapsed s in
      s1 = s2 /\ currentScreen s1 = success /\ profile s1 = profile s
      /\ isVerifying s1 = false /\ verifyDelays s1 = 0)
  /\ (isVerifying s = false ->
      WithAppleScreen.dispatch VerifyDelayElapsed s = s
      /\ AppTsx.dispatch toLowerCase VerifyDelayElapsed s = s).
Proof.
  intros R. destruct (reachable_flowInv toLowerCase s R) as (_ & _ & (_ & V & L)).
  split; [exact L|]. split; [exact V|]. split.
  - intros Iv. apply V in Iv. cbv zeta.
    unfold WithAppleScreen.dispatch, AppTsx.dispatch. cbn [background].
    rewrite Iv. simpl. rewrite Iv. repeat split.
  - intros Iv.
    assert (Z : verifyDelays s = 0).
    { destruct (decide (verifyDelays s = 1)) as [E|NE]; [|lia].
      apply V in E. congruence. }
    unfold WithAppleScreen.dispatch, AppTsx.dispatch. cbn [background].
    rewrite Z. split; reflexivity.
Qed.

Lemma one_verification_in_flight_witness :
  let s := run WithAppleScreen.dispatch
             (firstVisit ++ [ClickContinue] ++
              [ChangeOTP 0 (js "1"); ChangeOTP 1 (js "2"); ChangeOTP 2 (js "3");
               ChangeOTP 3 (js "4"); ChangeOTP 4 (js "5"); ChangeOTP 5 (js "6");
               ClickVerify; ClickBackToForm; ClickUseDifferentMethod])
             initialState in
  currentScreen s = landing
  /\ currentScreen (WithAppleScreen.dispatch VerifyDelayElapsed s) = success
  /\ profile (WithAppleScreen.dispatch VerifyDelayElapsed s) = emptyProfile.
Proof.
  cbv zeta. split; [vm_compute; reflexivity|].
  destruct (one_verification_in_flight (fun x => x)
    (run WithAppleScreen.dispatch
             (firstVisit ++ [ClickContinue] ++
              [ChangeOTP 0 (js "1"); ChangeOTP 1 (js "2"); ChangeOTP 2 (js "3");
               ChangeOTP 3 (js "4"); ChangeOTP 4 (js "5"); ChangeOTP 5 (js "6");
               ClickVerify; ClickBackToForm; ClickUseDifferentMethod])
             initialState)) as (_ & _ & Fire & _).
  - left. apply run_reachable. constructor.
  - destruct Fire as (_ & Sc & Pr & _); [vm_compute; reflexivity|].
    split; [exact Sc|]. rewrite Pr. vm_compute. reflexivity.
Defined.




